(** * Persistent cloud relay and persistent laptop client: a shallow embedding

    Models [persistent_cloud_relay.py] (the global [devices], [device_info]
    and [paired_devices] stores, the two JSON files written by
    [save_persistent_data], and the per-connection [handle_client] loop)
    and the pairing-code logic of [persistent_laptop_client.py]. *)

From stdpp Require Import base gmap sets list strings.
From Stdlib Require Import ZArith Lia Ascii.

Open Scope string_scope.

(** ** Python values *)

(** A Python [str] is represented by the bytes of its code points in
    generalized UTF-8: surrogate code points U+D800..U+DFFF, which
    [json.loads] produces from a lone escape such as \ud800, are encoded
    like the others, as 0xED 0xA0..0xBF 0x80..0xBF. *)

(** [s.encode()] (UTF-8, strict) raises [UnicodeEncodeError] exactly when
    [s] holds a surrogate code point. *)
Fixpoint has_surrogate (s : string) : bool :=
  match s with
  | String a ((String b _) as r) =>
      (Nat.eqb (nat_of_ascii a) 237 && Nat.leb 160 (nat_of_ascii b) &&
       Nat.leb (nat_of_ascii b) 191) || has_surrogate r
  | _ => false
  end.

(** [json.loads('"\\ud800"')]: a lone surrogate. *)
Definition lone_surrogate : string :=
  String (ascii_of_nat 237) (String (ascii_of_nat 160) (String (ascii_of_nat 128) EmptyString)).

(** A [device_id] or [target_device_id] as read with [data.get(...)]:
    Python [None] or a string. *)
Abbreviation pyid := (option string).

(** Truthiness of such a value ([if device_id: ...]). *)
Definition py_truthy (v : pyid) : bool :=
  match v with
  | Some s => negb (bool_decide (s = ""))
  | None => false
  end.

(** [f"{v}"] for such a value. *)
Definition py_str (v : pyid) : string :=
  match v with Some s => s | None => "None" end.

(** [data.get(key, default)] for a string field. *)
Definition get_default (v : option string) (d : string) : string :=
  match v with Some s => s | None => d end.

(** Connections (websocket objects) are identified by a number. *)
Abbreviation conn := nat.

(** ** Python dicts: insertion-ordered association lists *)

Section PyDict.
Context {K V : Type} `{EqDecision K}.

Fixpoint dict_get (k : K) (d : list (K * V)) : option V :=
  match d with
  | [] => None
  | (k', v) :: d' => if decide (k = k') then Some v else dict_get k d'
  end.

Definition dict_mem (k : K) (d : list (K * V)) : bool :=
  match dict_get k d with Some _ => true | None => false end.

(** [d[k] = v]: an existing key keeps its position, a new key is
    appended. *)
Fixpoint dict_set (k : K) (v : V) (d : list (K * V)) : list (K * V) :=
  match d with
  | [] => [(k, v)]
  | (k', v') :: d' =>
      if decide (k = k') then (k', v) :: d' else (k', v') :: dict_set k v d'
  end.

(** [del d[k]]. *)
Fixpoint dict_del (k : K) (d : list (K * V)) : list (K * V) :=
  match d with
  | [] => []
  | (k', v') :: d' => if decide (k = k') then d' else (k', v') :: dict_del k d'
  end.

(** Number of entries stored under [k]. *)
Definition dict_count (k : K) (d : list (K * V)) : nat :=
  length (filter (fun kv => kv.1 = k) d).
End PyDict.

(** ** Relay data model *)

(** [generate_device_fingerprint] returns the first 16 hex digits of a
    SHA-256 digest; the digest is kept symbolic, as the hashed input.
    [None]: [data.encode()] raised [UnicodeEncodeError]. *)
Inductive digest := sha256_hex16 (input : string).

Definition generate_device_fingerprint (device_id : pyid) (device_name : string) : option digest :=
  let data := py_str device_id ++ ":" ++ device_name in
  if has_surrogate data then None else Some (sha256_hex16 data).

(** One [device_info] entry. *)
Record info := mk_info {
  device_type : pyid;
  device_name : string;
  fingerprint : digest;
  first_seen : string;
  last_seen : string
}.

Definition set_last_seen (t : string) (i : info) : info :=
  mk_info (device_type i) (device_name i) (fingerprint i) (first_seen i) t.

(** Messages the relay sends ([json.dumps] of these dicts). *)
Inductive out_msg :=
  | ORegistered (device_id : pyid) (is_known_device : bool) (message : string)
  | OExistingPairings (pairings : list (pyid * string * pyid)) (message : string)
  | OPairRequest (from_device_id : pyid) (pairing_code : pyid) (device_name : string)
  | OPairingFailed (message : string)
  | OPaired (peer_device_id : pyid) (peer_device_name : string)
            (is_persistent : bool) (message : string)
  | OUnpaired (target_device_id : pyid) (message : string)
  | ORelayMessage (from_device_id : pyid) (message_type : string) (payload : string)
  | ORelayFailed (message : string).

(** Pieces of JSON text written by [json.dump]: one per entry, between
    the opening and closing brackets. *)
Inductive chunk :=
  | JOpen
  | JDevice (k : pyid) (v : info)
  | JPair (p : pyid * pyid)
  | JClose.

(** Observable effects, in order: a message written to a connection, or
    a completed [save_persistent_data]. *)
Inductive event :=
  | Sent (to : conn) (m : out_msg)
  | Persisted.

Record rstate := mk_rstate {
  devices : list (pyid * conn);          (* device_id -> websocket *)
  device_info : list (pyid * info);      (* device_id -> info *)
  paired_devices : gset (pyid * pyid);   (* set of (device1, device2) *)
  closed : gset conn;                    (* connections whose transport is closed *)
  files : gmap string (list chunk);      (* the file system *)
  trace : list event
}.

Definition DEVICES_FILE := "~/.laptop_remote_access/devices.json".
Definition PAIRINGS_FILE := "~/.laptop_remote_access/pairings.json".

Definition set_devices d s :=
  mk_rstate d (device_info s) (paired_devices s) (closed s) (files s) (trace s).
Definition set_device_info d s :=
  mk_rstate (devices s) d (paired_devices s) (closed s) (files s) (trace s).
Definition set_paired p s :=
  mk_rstate (devices s) (device_info s) p (closed s) (files s) (trace s).
Definition set_closed c s :=
  mk_rstate (devices s) (device_info s) (paired_devices s) c (files s) (trace s).
Definition set_files f s :=
  mk_rstate (devices s) (device_info s) (paired_devices s) (closed s) f (trace s).
Definition emit e s :=
  mk_rstate (devices s) (device_info s) (paired_devices s) (closed s) (files s)
    (trace s ++ [e])%list.

(** ** The handler monad: shared global state and Python exceptions *)

Inductive exn := ConnectionClosed | KeyError | TypeError | UnicodeEncodeError.

Inductive result (A : Type) := Ok (a : A) | Raise (e : exn).
Arguments Ok {A} a.
Arguments Raise {A} e.

Definition M (A : Type) := rstate -> result A * rstate.

Definition ret {A} (a : A) : M A := fun s => (Ok a, s).
Definition bind {A B} (c : M A) (k : A -> M B) : M B :=
  fun s => match c s with
           | (Ok a, s') => k a s'
           | (Raise e, s') => (Raise e, s')
           end.
Definition raise {A} (e : exn) : M A := fun s => (Raise e, s).
Definition gets {A} (f : rstate -> A) : M A := fun s => (Ok (f s), s).
Definition modify (f : rstate -> rstate) : M unit := fun s => (Ok tt, f s).

Notation "'let*' x ':=' c 'in' k" := (bind c (fun x => k))
  (at level 200, x name, c at level 100, k at level 200).
Notation "c ;;; k" := (bind c (fun _ => k))
  (at level 100, right associativity).

(** [try: ... except: pass] (and [except Exception as e: logger.error]):
    effects made before the exception are kept. *)
Definition try_pass (c : M unit) : M unit :=
  fun s => match c s with (_, s') => (Ok tt, s') end.

(** [try: ...; return True  except: return False]. *)
Definition try_ok (c : M unit) : M bool :=
  fun s => match c s with
           | (Ok _, s') => (Ok true, s')
           | (Raise _, s') => (Ok false, s')
           end.

(** [await ws.send(json.dumps(m))]: raises on a closed transport. *)
Definition send (w : conn) (m : out_msg) : M unit :=
  fun s => if decide (w ∈ closed s) then (Raise ConnectionClosed, s)
           else (Ok tt, emit (Sent w m) s).

(** The log lines evaluate [device_id[:8]], a [TypeError] on [None]. *)
Definition log_slice (v : pyid) : M unit :=
  match v with Some _ => ret tt | None => raise TypeError end.

(** [d[k]] on a dict: [KeyError] when absent. *)
Definition dict_index {V} (k : pyid) (d : list (pyid * V)) : M V :=
  match dict_get k d with Some v => ret v | None => raise KeyError end.

(** ** [str(n)] for a Python [int] *)

Definition digit_char (d : Z) : ascii := ascii_of_nat (48 + Z.to_nat d).

(** Decimal digits of [n > 0], least significant first, prepended to
    [acc]; [fuel] bounds the number of digits. *)
Fixpoint dec_aux (fuel : nat) (n : Z) (acc : string) : string :=
  match fuel with
  | O => acc
  | S f => if Z.eqb n 0 then acc
           else dec_aux f (n / 10) (String (digit_char (n mod 10)) acc)
  end.

Definition py_str_int (n : Z) : string :=
  if Z.eqb n 0 then "0"
  else if Z.ltb n 0 then "-" ++ dec_aux (Pos.size_nat (Z.to_pos (- n))) (- n) ""
  else dec_aux (Pos.size_nat (Z.to_pos n)) n "".

(** ** [save_persistent_data] *)

(** [json.dump(obj, f, indent=2)] writes the opening bracket, the entries
    and the closing bracket. An entry keeps its key as it is; [json.dump]
    would write a [None] key as the string "null". *)
Definition dump_devices (d : list (pyid * info)) : list chunk :=
  (JOpen :: map (fun kv => JDevice kv.1 kv.2) d ++ [JClose])%list.

Definition dump_pairings (p : gset (pyid * pyid)) : list chunk :=
  (JOpen :: map JPair (elements p) ++ [JClose])%list.

(** File-system operations: [open(path, 'w')] truncates, each write
    appends. *)
Inductive fs_op :=
  | FOpenW (path : string)
  | FWrite (path : string) (c : chunk).

Definition apply_fs_op (fs : gmap string (list chunk)) (o : fs_op) : gmap string (list chunk) :=
  match o with
  | FOpenW p => <[p := []]> fs
  | FWrite p c => <[p := (default [] (fs !! p) ++ [c])%list]> fs
  end.

Definition apply_fs_ops (fs : gmap string (list chunk)) (os : list fs_op) :=
  foldl apply_fs_op fs os.

(** The operations performed by one [save_persistent_data] call, in order:
    each file is opened for writing (truncated) and rewritten in place. *)
Definition save_ops (s : rstate) : list fs_op :=
  (FOpenW DEVICES_FILE :: map (FWrite DEVICES_FILE) (dump_devices (device_info s))
   ++ FOpenW PAIRINGS_FILE :: map (FWrite PAIRINGS_FILE) (dump_pairings (paired_devices s)))%list.

(** The state after a completed save. *)
Definition saved (s : rstate) : rstate :=
  emit Persisted (set_files (apply_fs_ops (files s) (save_ops s)) s).

Definition save_persistent_data : M unit := modify saved.

(** [paired_devices.add(pair)]. *)
Definition set_add (pair : pyid * pyid) (p : gset (pyid * pyid)) : gset (pyid * pyid) :=
  {[pair]} ∪ p.

(** ** [handle_client]: one message *)

Inductive in_msg :=
  | MRegister (device_id device_type : pyid) (device_name : option string)
  | MPairRequest (pairing_code : pyid) (device_name : option string)
  | MPairResponse (target_device_id : pyid) (accepted : option bool) (message : option string)
  | MUnpair (target_device_id : pyid)
  | MRelay (target_device_id : pyid) (message_type : option string) (payload : option string)
  | MOther (type_ : pyid).

(** The [existing_pairings] list computed at registration. *)
Definition my_pairings (device_id : pyid) (p : gset (pyid * pyid))
    (di : list (pyid * info)) : list (pyid * string * pyid) :=
  omap (fun pr : pyid * pyid =>
          if bool_decide (device_id = pr.1 \/ device_id = pr.2) then
            let peer_id := if bool_decide (pr.1 = device_id) then pr.2 else pr.1 in
            match dict_get peer_id di with
            | Some i => Some (peer_id, device_name i, device_type i)
            | None => None
            end
          else None) (elements p).

(** The two [datetime.now()] calls that fill [first_seen] and
    [last_seen] of a new entry are taken as one instant [now]. *)
Definition handle_register (websocket : conn) (device_id device_type : pyid)
    (device_name : string) (now : string) : M unit :=
  modify (fun s => set_devices (dict_set device_id websocket (devices s)) s) ;;;
  let* fp := match generate_device_fingerprint device_id device_name with
             | Some fp => ret fp
             | None => raise UnicodeEncodeError
             end in
  let* di := gets device_info in
  let is_known := dict_mem device_id di in
  (if is_known then
     let* i := dict_index device_id di in
     modify (fun s => set_device_info (dict_set device_id (set_last_seen now i) (device_info s)) s) ;;;
     save_persistent_data ;;;
     log_slice device_id
   else
     modify (fun s => set_device_info
                        (dict_set device_id (mk_info device_type device_name fp now now)
                           (device_info s)) s) ;;;
     save_persistent_data ;;;
     log_slice device_id) ;;;
  send websocket (ORegistered device_id is_known (py_str device_type ++ " registered successfully")) ;;;
  let* mp := gets (fun s => my_pairings device_id (paired_devices s) (device_info s)) in
  match mp with
  | [] => ret tt
  | _ => send websocket (OExistingPairings mp
           ("Found " ++ py_str_int (Z.of_nat (length mp)) ++ " existing pairing(s)"))
  end.

(** The loop over [devices.items()] looking for a laptop: the first
    laptop-class entry whose send succeeds gets the offer. *)
Fixpoint forward_pair_request (ds : list (pyid * conn)) (device_id pairing_code : pyid)
    (device_name : string) : M bool :=
  match ds with
  | [] => ret false
  | (laptop_id, laptop_ws) :: rest =>
      let* di := gets device_info in
      let is_laptop := match dict_get laptop_id di with
                       | Some i => bool_decide (device_type i = Some "laptop")
                       | None => false
                       end in
      if is_laptop then
        let* ok := try_ok (send laptop_ws (OPairRequest device_id pairing_code device_name)) in
        if ok then ret true else forward_pair_request rest device_id pairing_code device_name
      else forward_pair_request rest device_id pairing_code device_name
  end.

Definition handle_pair_request (websocket : conn) (device_id pairing_code : pyid)
    (device_name : string) : M unit :=
  let* ds := gets devices in
  let* laptop_found := forward_pair_request ds device_id pairing_code device_name in
  if laptop_found then ret tt
  else send websocket (OPairingFailed "No laptops available").

Definition handle_pair_response (websocket : conn) (device_id target_id : pyid)
    (accepted : bool) (message : string) : M unit :=
  let* ds := gets devices in
  if dict_mem target_id ds then
    if accepted then
      modify (fun s => set_paired (set_add (device_id, target_id) (paired_devices s)) s) ;;;
      save_persistent_data ;;;
      let* ti := gets device_info in
      let* t := dict_index target_id ti in
      send websocket (OPaired target_id (device_name t) true message) ;;;
      let* ds' := gets devices in
      let* tws := dict_index target_id ds' in
      let* hi := gets device_info in
      let* h := dict_index device_id hi in
      send tws (OPaired device_id (device_name h) true
                  "Successfully paired with laptop (persistent)") ;;;
      log_slice device_id ;;; log_slice target_id
    else
      let* tws := dict_index target_id ds in
      send tws (OPairingFailed message)
  else ret tt.

Definition handle_unpair (websocket : conn) (device_id target_id : pyid) : M unit :=
  let* p := gets paired_devices in
  let to_remove := filter (fun pr : pyid * pyid =>
                     (device_id = pr.1 \/ device_id = pr.2) /\
                     (target_id = pr.1 \/ target_id = pr.2)) (elements p) in
  modify (fun s => set_paired (paired_devices s ∖ list_to_set to_remove) s) ;;;
  save_persistent_data ;;;
  send websocket (OUnpaired target_id "Device unpaired successfully") ;;;
  let* ds := gets devices in
  (if dict_mem target_id ds then
     let* tws := dict_index target_id ds in
     send tws (OUnpaired device_id "Device was unpaired remotely")
   else ret tt) ;;;
  log_slice device_id ;;; log_slice target_id.

Definition handle_relay_message (websocket : conn) (device_id target_id : pyid)
    (message_type payload : string) : M unit :=
  let* p := gets paired_devices in
  if bool_decide ((device_id, target_id) ∈ p \/ (target_id, device_id) ∈ p) then
    let* ds := gets devices in
    if dict_mem target_id ds then
      try_pass (let* tws := dict_index target_id ds in
                send tws (ORelayMessage device_id message_type payload) ;;;
                log_slice device_id ;;; log_slice target_id)
    else send websocket (ORelayFailed "Target device is offline")
  else send websocket (ORelayFailed "Devices are not paired").

(** The body of the [if msg_type == ...] chain. *)
Definition handle_message (websocket : conn) (device_id : pyid) (m : in_msg)
    (now : string) : M unit :=
  match m with
  | MRegister _ dtype dname =>
      handle_register websocket device_id dtype (get_default dname "Unknown") now
  | MPairRequest code dname =>
      handle_pair_request websocket device_id code (get_default dname "Mobile")
  | MPairResponse target acc msg =>
      handle_pair_response websocket device_id target (default false acc) (get_default msg "")
  | MUnpair target => handle_unpair websocket device_id target
  | MRelay target mt pl =>
      handle_relay_message websocket device_id target (get_default mt "generic")
        (get_default pl "{}")
  | MOther _ => ret tt
  end.

(** [device_id] is the connection-local variable: [register] assigns it
    before anything can fail. *)
Definition new_device_id (device_id : pyid) (m : in_msg) : pyid :=
  match m with MRegister d _ _ => d | _ => device_id end.

(** One iteration of [async for message in websocket], inside its
    [try: ... except Exception as e: logger.error(...)]. *)
Definition step (websocket : conn) (device_id : pyid) (m : in_msg) (now : string) : M pyid :=
  let device_id' := new_device_id device_id m in
  try_pass (handle_message websocket device_id' m now) ;;;
  ret device_id'.

(** The [finally:] block run when the connection's loop ends. *)
Definition cleanup (device_id : pyid) (now : string) : M unit :=
  let* ds := gets devices in
  if py_truthy device_id && dict_mem device_id ds then
    modify (fun s => set_devices (dict_del device_id (devices s)) s) ;;;
    let* di := gets device_info in
    if dict_mem device_id di then
      let* i := dict_index device_id di in
      modify (fun s => set_device_info (dict_set device_id (set_last_seen now i) (device_info s)) s) ;;;
      save_persistent_data
    else ret tt
  else ret tt.

(** ** The relay process: interleaved connections *)

Inductive action :=
  | Recv (c : conn) (m : in_msg) (now : string)   (* connection [c] delivers [m] *)
  | Drop (c : conn)                  (* the peer of [c] goes away; the handler has
                                        not noticed yet, but sends to [c] now fail *)
  | Disconnect (c : conn) (now : string).  (* [c] closes and its loop ends *)

(** Global state plus each connection's local [device_id]. *)
Definition world := (rstate * gmap conn pyid)%type.

Definition run_action (w : world) (a : action) : world :=
  let (s, loc) := w in
  match a with
  | Recv c m now =>
      let did := default None (loc !! c) in
      match step c did m now s with
      | (Ok did', s') => (s', <[c := did']> loc)
      | (Raise _, s') => (s', loc)
      end
  | Drop c => (set_closed ({[c]} ∪ closed s) s, loc)
  | Disconnect c now =>
      let did := default None (loc !! c) in
      let s1 := set_closed ({[c]} ∪ closed s) s in
      (snd (cleanup did now s1), delete c loc)
  end.

Definition run (w : world) (acts : list action) : world := foldl run_action w acts.

Definition empty_rstate : rstate := mk_rstate [] [] ∅ ∅ ∅ [].
Definition start : world := (empty_rstate, ∅).

(** ** [load_persistent_data] and a process restart *)

(** [json.load] of the text written by [dump_devices] / [dump_pairings];
    [None] when the text is not a complete JSON document. *)
Fixpoint parse_device_entries (l : list chunk) : option (list (pyid * info)) :=
  match l with
  | [JClose] => Some []
  | JDevice k v :: r => (fun d => (k, v) :: d) <$> parse_device_entries r
  | _ => None
  end.

Definition parse_devices (l : list chunk) : option (list (pyid * info)) :=
  match l with JOpen :: r => parse_device_entries r | _ => None end.

Fixpoint parse_pair_entries (l : list chunk) : option (list (pyid * pyid)) :=
  match l with
  | [JClose] => Some []
  | JPair p :: r => (fun d => p :: d) <$> parse_pair_entries r
  | _ => None
  end.

Definition parse_pairings (l : list chunk) : option (list (pyid * pyid)) :=
  match l with JOpen :: r => parse_pair_entries r | _ => None end.

(** A file that exists but fails to load resets the store to empty (the
    [except Exception] branches). *)
Definition load_persistent_data : M unit :=
  modify (fun s =>
    let s1 := match files s !! DEVICES_FILE with
              | Some txt => set_device_info (default [] (parse_devices txt)) s
              | None => s
              end in
    match files s1 !! PAIRINGS_FILE with
    | Some txt => set_paired (list_to_set (default [] (parse_pairings txt))) s1
    | None => s1
    end).

(** A fresh relay process started on the file system [fs]. *)
Definition restart (fs : gmap string (list chunk)) : rstate :=
  snd (load_persistent_data (mk_rstate [] [] ∅ ∅ fs [])).

(** ** [PersistentLaptopClient]: the host side of pairing *)

Record host_state := mk_host {
  pairing_code : option string;    (* self.pairing_code, initially None *)
  host_device_name : string        (* self.device_name *)
}.

(** Messages the host sends to the relay. *)
Inductive host_msg :=
  | HPairResponse (target_device_id : pyid) (accepted : bool) (message : string).

(** [handle_pair_request]: accept iff [self.pairing_code] is set (truthy)
    and equal to the offered code; [self] is left as it is. *)
Definition host_handle_pair_request (self : host_state) (code from : pyid)
    (device_name : option string) : host_state * list host_msg :=
  let accept := match pairing_code self with
                | Some c => py_truthy (Some c) && bool_decide (code = Some c)
                | None => false
                end in
  if accept then
    (self, [HPairResponse from true
              ("Paired with " ++ host_device_name self ++ " (persistent)")])
  else
    (self, [HPairResponse from false "Invalid pairing code"]).

(** [generate_pairing_code], given the value [r] drawn by
    [random.randint(100000, 999999)]. *)
Definition generate_pairing_code (self : host_state) (r : Z) : host_state * string :=
  let code := py_str_int r in
  (mk_host (Some code) (host_device_name self), code).

(** The [device_info] dict after [register] of [d]: a known entry gets
    its [last_seen] updated, an unknown one is created; when the
    fingerprint raises, nothing is written. *)
Definition registered_info (d dt : pyid) (dn now : string) (di : list (pyid * info)) :=
  match generate_device_fingerprint d dn with
  | None => di
  | Some fp =>
      match dict_get d di with
      | Some i => dict_set d (set_last_seen now i) di
      | None => dict_set d (mk_info dt dn fp now now) di
      end
  end.

(** ** Well-formedness of the relay stores *)

(** A handler leaves the state component [f] unchanged, whatever it
    does otherwise. *)
Definition preserves {A X} (f : rstate -> X) (c : M A) : Prop :=
  forall s, f (snd (c s)) = f s.


(** ** [PersistentLaptopClient.handle_message]: the [paired_devices] list *)

(** One element of [self.paired_devices]: a dict with the keys
    [peer_device_id], [peer_device_name] and [peer_device_type]. *)
Record peer_entry := mk_peer {
  peer_device_id : pyid;
  peer_device_name : string;
  peer_device_type : pyid
}.

(** Messages from the relay that [handle_message] reads, with the fields
    it reads ([data.get(...)]); [ROther] is a type the [if] chain does not
    handle. [pair_request] is [host_handle_pair_request] above;
    [relay_message] does not touch the list and is not modelled here. *)
Inductive relay_msg :=
  | RRegistered (is_known_device : option bool)
  | RExistingPairings (pairings : option (list peer_entry))
  | RPaired (peer_device_id : pyid) (peer_device_name : option string)
  | RUnpaired (target_device_id : pyid)
  | RError (message : pyid)
  | ROther (type_ : pyid).

(** The [paired_devices] list after one message, and whether
    [handle_message] returned normally ([false]: it raised, which ends
    [listen_for_messages]). *)
Definition client_handle_message (pds : list peer_entry) (m : relay_msg)
    : list peer_entry * bool :=
  match m with
  | RExistingPairings ps => (default [] ps, true)
  | RPaired pid pname =>
      let new_pairing := mk_peer pid (get_default pname "Unknown Device") (Some "mobile") in
      if existsb (fun p => bool_decide (peer_device_id p = pid)) pds then (pds, true)
      else ((pds ++ [new_pairing])%list, true)
  | RUnpaired target_id =>
      (filter (fun p => peer_device_id p <> target_id) pds,
       (* [target_id[:8]] in the log line *)
       match target_id with Some _ => true | None => false end)
  | _ => (pds, true)
  end.

(** ** [PersistentLaptopClient.load_device_identity] *)

(** The content of [DEVICE_FILE]: absent, not loadable JSON, or the dict
    written by [save_device_identity] ([device_id] may be missing). *)
Inductive id_file :=
  | NoIdFile
  | CorruptIdFile
  | IdFile (device_id : option string) (device_name created_at hostname : string).

Section Identity.
(** [hashlib.sha256(s.encode()).hexdigest()[:12]]. *)
Variable sha256_hex12 : string -> string.

(** Returns [self.device_id] and the content of [DEVICE_FILE] afterwards,
    given the host name, [datetime.now().date()], [datetime.now()] and
    [self.device_name]; [save_device_identity] is assumed to succeed. *)
Definition load_device_identity (f : id_file) (hostname date now device_name : string)
    : string * id_file :=
  match f with
  | IdFile (Some device_id) _ _ _ => (device_id, f)
  | _ =>
      let mac_data := hostname ++ ":" ++ date in
      let device_id := "laptop_" ++ hostname ++ "_" ++ sha256_hex12 mac_data in
      (device_id, IdFile (Some device_id) device_name now hostname)
  end.
End Identity.

(** ** [PersistentLaptopClient.send_file_content] *)

(** What the laptop's file system holds at a path. *)
Inductive read_outcome :=
  | ReadOk (content : string)      (* [f.read()] with [errors='ignore'] *)
  | ReadErr (message : string).    (* [str(e)] of the exception [open]/[read] raised *)

Inductive fs_entry :=
  | FsMissing
  | FsDir
  | FsFile (st_size : Z) (read : read_outcome).

Inductive client_payload :=
  | PFileContent (path content : string)
  | PError (message : string).

(** A [relay_message] the laptop sends to the relay. *)
Inductive client_out :=
  | CRelay (target_device_id : pyid) (message_type : string) (payload : client_payload).

Section FileContent.
(** [Path(p).expanduser()], as a string, and the file system. *)
Variable expanduser : string -> string.
Variable lookup : string -> fs_entry.

(** The messages sent; [self.websocket.send] is assumed to succeed. *)
Definition send_file_content (target_device_id file_path : pyid) : list client_out :=
  let error m := [CRelay target_device_id "error" (PError m)] in
  match file_path with
  | None => error "expected str, bytes or os.PathLike object, not NoneType"
  | Some p =>
      let path_obj := expanduser p in
      match lookup path_obj with
      | FsMissing | FsDir => error ("File does not exist: " ++ p)
      | FsFile st_size rd =>
          if Z.ltb (1024 * 1024) st_size then error "File too large (max 1MB)"
          else match rd with
               | ReadOk content =>
                   [CRelay target_device_id "file_content" (PFileContent path_obj content)]
               | ReadErr m => error m
               end
      end
  end.
End FileContent.

(** * Properties *)

Ltac unfold_m :=
  unfold step, new_device_id, handle_message, bind, ret, gets, modify, try_pass,
    try_ok, send, log_slice, dict_index, raise in *; simpl.

(** Scenario: [m] registers on connection 2; connection 1, which never
    registered (its [device_id] is [None]), answers a pairing for [m]. *)
Definition unregistered_pairing : list action :=
  [Recv 2 (MRegister (Some "m") (Some "mobile") (Some "Phone")) "t0";
   Recv 1 (MPairResponse (Some "m") (Some true) None) "t1"].

(** Scenario: host [h] (connection 1) and companion [m] (connection 2)
    register, [h] accepts a pairing with [m]. *)
Definition paired_h_m : list action :=
  [Recv 1 (MRegister (Some "h") (Some "laptop") (Some "Laptop")) "t0";
   Recv 2 (MRegister (Some "m") (Some "mobile") (Some "Phone")) "t1";
   Recv 1 (MPairResponse (Some "m") (Some true) None) "t2"].

(** Scenario: phone [m] registers on connection 1 with the display name
    [lone_surrogate]. *)
Definition surrogate_register : list action :=
  [Recv 1 (MRegister (Some "m") (Some "mobile") (Some lone_surrogate)) "t0"].

(** ** C1: relaying without a pairing *)

(** C1 (amended). A [relay_message] whose sender and target are recorded in
    [paired_devices] in neither order produces exactly one effect: a
    [relay_failed] "Devices are not paired" sent to the sender (nothing if
    the sender's own transport is closed); nothing reaches the target and
    no store changes. Directory membership is not consulted. *)
Theorem relay_unpaired_fails_to_sender (s : rstate) (ws : conn) (did tgt : pyid)
    (mt pl : option string) (now : string) :
  (did, tgt) ∉ paired_devices s ->
  (tgt, did) ∉ paired_devices s ->
  step ws did (MRelay tgt mt pl) now s =
  (Ok did, if decide (ws ∈ closed s) then s
           else emit (Sent ws (ORelayFailed "Devices are not paired")) s).
Proof.
  intros H1 H2. unfold_m. unfold handle_relay_message, bind, gets, send; simpl.
  rewrite bool_decide_false by tauto.
  destruct (decide (ws ∈ closed s)); reflexivity.
Qed.

Lemma relay_unpaired_fails_to_sender_witness :
  ((Some "a", Some "b") ∉ paired_devices (fst (run start paired_h_m))) /\
  ((Some "b", Some "a") ∉ paired_devices (fst (run start paired_h_m))) /\
  step 1 (Some "a") (MRelay (Some "b") None None) "t3" (fst (run start paired_h_m)) =
  (Ok (Some "a"), emit (Sent 1 (ORelayFailed "Devices are not paired"))
                     (fst (run start paired_h_m))).
Proof.
  assert (Ha : (Some "a", Some "b") ∉ paired_devices (fst (run start paired_h_m)))
    by (vm_compute; set_solver).
  assert (Hb : (Some "b", Some "a") ∉ paired_devices (fst (run start paired_h_m)))
    by (vm_compute; set_solver).
  split; [assumption | split; [assumption |]].
  rewrite (relay_unpaired_fails_to_sender _ 1 (Some "a") (Some "b") None None "t3" Ha Hb).
  reflexivity.
Defined.

(** C1 counterexample: after the scenario [unregistered_pairing], the
    sender [None] is absent from [device_info], yet its [relay_message] to
    [m] is delivered to [m]'s connection and no [relay_failed] is sent. *)
Lemma relay_unregistered_sender_delivered :
  dict_mem None (device_info (fst (run start unregistered_pairing))) = false /\
  trace (fst (run start (unregistered_pairing ++
                         [Recv 1 (MRelay (Some "m") None (Some "hello")) "t2"])%list)) =
  (trace (fst (run start unregistered_pairing)) ++
   [Sent 2 (ORelayMessage None "generic" "hello")])%list.
Proof. split; vm_compute; reflexivity. Qed.

(** ** C3: outcome of a relayed write *)

(** C3 (amended). When the pair is recorded (either order) and the target
    has a registry entry [tws], the relay writes the message to [tws] and
    reports nothing to the sender: a successful write is not acknowledged,
    and a failed write (closed transport) is swallowed with no effect. *)
Theorem relay_outcome_not_reported (s : rstate) (ws tws : conn) (did tgt : pyid)
    (mt pl : option string) (now : string) :
  (did, tgt) ∈ paired_devices s \/ (tgt, did) ∈ paired_devices s ->
  dict_get tgt (devices s) = Some tws ->
  step ws did (MRelay tgt mt pl) now s =
  (Ok did, if decide (tws ∈ closed s) then s
           else emit (Sent tws (ORelayMessage did (get_default mt "generic")
                                  (get_default pl "{}"))) s).
Proof.
  intros Hp Hd. unfold_m. unfold handle_relay_message, bind, gets, send, dict_mem; simpl.
  rewrite bool_decide_true by tauto. rewrite Hd. unfold dict_index, ret. rewrite Hd.
  unfold try_pass; simpl.
  destruct (decide (tws ∈ closed s)); [reflexivity |].
  destruct did, tgt; reflexivity.
Qed.

Lemma relay_outcome_not_reported_witness :
  step 1 (Some "h") (MRelay (Some "m") None (Some "ls")) "t3" (fst (run start paired_h_m)) =
  (Ok (Some "h"), emit (Sent 2 (ORelayMessage (Some "h") "generic" "ls"))
                     (fst (run start paired_h_m))).
Proof.
  rewrite (relay_outcome_not_reported _ 1 2 (Some "h") (Some "m") None (Some "ls") "t3").
  - reflexivity.
  - left. vm_compute. set_solver.
  - vm_compute. reflexivity.
Defined.

(** C3 counterexample: [h] and [m] are paired, [m]'s transport drops
    before its handler runs cleanup, and [h] relays to [m]: the write fails
    and [h] receives nothing at all. *)
Lemma relay_failed_write_swallowed :
  let w := run start (paired_h_m ++ [Drop 2])%list in
  dict_get (Some "m") (devices (fst w)) = Some 2 /\
  trace (fst (run w [Recv 1 (MRelay (Some "m") None (Some "ls")) "t3"])) = trace (fst w).
Proof. split; vm_compute; reflexivity. Qed.

(** ** Shared lemmas *)

(** The accepted branch of [pair_response], when every lookup succeeds and
    both transports are open. *)
Lemma pair_response_accepted_step (s : rstate) (ws tws : conn) (host tgt : pyid)
    (h t : info) (msg : option string) (now : string) :
  dict_get tgt (devices s) = Some tws ->
  dict_get host (device_info s) = Some h ->
  dict_get tgt (device_info s) = Some t ->
  ws ∉ closed s -> tws ∉ closed s ->
  step ws host (MPairResponse tgt (Some true) msg) now s =
  (Ok host,
   emit (Sent tws (OPaired host (device_name h) true
                     "Successfully paired with laptop (persistent)"))
     (emit (Sent ws (OPaired tgt (device_name t) true (get_default msg "")))
        (saved (set_paired (set_add (host, tgt) (paired_devices s)) s)))).
Proof.
  intros Hd Hh Ht Hws Htws.
  unfold_m. unfold handle_pair_response, dict_mem, save_persistent_data, bind, gets, modify,
    dict_index, ret, send, log_slice, saved, emit, set_files, set_paired; simpl.
  rewrite !Hd, !Ht; simpl.
  destruct (decide (ws ∈ closed s)); [contradiction|]. simpl. rewrite !Hd; simpl. rewrite Hh; simpl.
  destruct (decide (tws ∈ closed s)); [contradiction|].
  destruct host, tgt; reflexivity.
Qed.

(** What a [register] step does to each part of the state. *)
Lemma register_step_shape (s : rstate) (ws : conn) (did d dt : pyid) (dn : option string) (now : string) :
  let s' := snd (step ws did (MRegister d dt dn) now s) in
  devices s' = dict_set d ws (devices s) /\
  device_info s' = registered_info d dt (get_default dn "Unknown") now (device_info s) /\
  paired_devices s' = paired_devices s /\
  closed s' = closed s /\
  (forall x, d = Some x -> ws ∉ closed s ->
   has_surrogate (x ++ ":" ++ get_default dn "Unknown") = false ->
   exists rest, trace s' = (trace s ++ [Persisted;
      Sent ws (ORegistered d (dict_mem d (device_info s))
                 (py_str dt ++ " registered successfully"))] ++ rest)%list) /\
  (generate_device_fingerprint d (get_default dn "Unknown") = None -> trace s' = trace s).
Proof.
  unfold_m. unfold handle_register, registered_info, dict_mem, save_persistent_data, bind, gets, modify,
    dict_index, ret, send, log_slice, raise, saved, emit, set_files, set_paired, set_devices,
    set_device_info; simpl.
  destruct (generate_device_fingerprint d (get_default dn "Unknown")) as [fp|] eqn:Efp; simpl.
  2: { refine (conj eq_refl (conj eq_refl (conj eq_refl (conj eq_refl (conj _ (fun _ => eq_refl))))));
       intros x -> _ Hx; exfalso; unfold generate_device_fingerprint in Efp; simpl in Efp;
       rewrite Hx in Efp; discriminate. }
  destruct (dict_get d (device_info s)) as [i|] eqn:E; simpl;
    (destruct d as [x|]; simpl;
     [destruct (decide (ws ∈ closed s)); simpl;
      [| match goal with |- context [my_pairings ?a ?b ?c] => destruct (my_pairings a b c) end; simpl;
       try (destruct (decide (ws ∈ closed s)); [contradiction|]; simpl)] |]);
    (do 4 (split; [reflexivity|])); (split; [|intros [=]]);
    intros x0 Hx Hws Hsur;
    try contradiction; try discriminate;
    eexists; rewrite <- ?app_assoc; reflexivity.
Qed.

Section DictLemmas.
Context {K V : Type} `{EqDecision K}.
Implicit Types (d : list (K * V)) (k : K) (v : V).

Lemma dict_get_set_eq d k v : dict_get k (dict_set k v d) = Some v.
Proof.
  induction d as [|[k' v'] d IH]; simpl.
  - by rewrite decide_True.
  - destruct (decide (k = k')) as [->|Hne]; simpl.
    + by rewrite decide_True.
    + by rewrite decide_False.
Qed.


Lemma dict_count_notin d k : k ∉ map fst d -> dict_count k d = 0.
Proof.
  unfold dict_count. induction d as [|[k' v'] d IH]; simpl; intros Hn; [done|].
  rewrite filter_cons. simpl. rewrite decide_False by set_solver.
  apply IH. set_solver.
Qed.

Lemma map_fst_dict_set d k v :
  map fst (dict_set k v d) = if decide (k ∈ map fst d) then map fst d else (map fst d ++ [k])%list.
Proof.
  induction d as [|[k' v'] d IH]; simpl.
  - done.
  - destruct (decide (k = k')) as [->|Hk]; simpl.
    + destruct (decide (k' ∈ k' :: map fst d)); [done | set_solver].
    + rewrite IH.
      destruct (decide (k ∈ map fst d)), (decide (k ∈ k' :: map fst d));
        first [done | set_solver].
Qed.

Lemma dict_set_NoDup d k v : NoDup (map fst d) -> NoDup (map fst (dict_set k v d)).
Proof.
  intros Hd. rewrite map_fst_dict_set. destruct (decide (k ∈ map fst d)); [done|].
  apply NoDup_app. split; [done|]. split; [set_solver|]. apply NoDup_singleton.
Qed.

Lemma dict_count_set d k v : NoDup (map fst d) -> dict_count k (dict_set k v d) = 1.
Proof.
  unfold dict_count. induction d as [|[k' v'] d IH]; simpl; intros Hd.
  - rewrite filter_cons, decide_True by done. done.
  - apply NoDup_cons in Hd as [Hn Hd].
    destruct (decide (k = k')) as [->|Hk]; simpl; rewrite filter_cons; simpl.
    + rewrite decide_True by done. simpl.
      pose proof (dict_count_notin d k' Hn) as H0. unfold dict_count in H0. by rewrite H0.
    + rewrite decide_False by done. by apply IH.
Qed.


End DictLemmas.

(** ** C2: accepting a pairing *)

(** C2 (amended). For a [pair_response] with [accepted=true] from a host
    whose [device_id] is in [device_info], naming a target that has a
    registry entry [tws] and a [device_info] entry, both transports being
    open: the pair (host, target) is added to [paired_devices], the stores
    are saved, then the host gets [paired] carrying the target's ID and
    name and the target gets [paired] carrying the host's ID and name.
    When the target has no registry entry (not connected), the message has
    no effect at all: no pairing, no notification. *)
Theorem pair_response_accepted_pairs_both (s : rstate) (ws tws : conn) (host tgt : pyid)
    (h t : info) (msg : option string) (now : string) :
  (dict_get tgt (devices s) = Some tws ->
   dict_get host (device_info s) = Some h ->
   dict_get tgt (device_info s) = Some t ->
   ws ∉ closed s -> tws ∉ closed s ->
   let s' := snd (step ws host (MPairResponse tgt (Some true) msg) now s) in
   paired_devices s' = set_add (host, tgt) (paired_devices s) /\
   trace s' = (trace s ++
     [Persisted;
      Sent ws (OPaired tgt (device_name t) true (get_default msg ""));
      Sent tws (OPaired host (device_name h) true
                  "Successfully paired with laptop (persistent)")])%list) /\
  (dict_get tgt (devices s) = None ->
   step ws host (MPairResponse tgt (Some true) msg) now s = (Ok host, s)).
Proof.
  split.
  - intros Hd Hh Ht Hws Htws. cbv zeta.
    rewrite (pair_response_accepted_step s ws tws host tgt h t msg now Hd Hh Ht Hws Htws).
    simpl. split; [reflexivity|]. by rewrite <- !app_assoc.
  - intros Hd. unfold_m. unfold handle_pair_response, gets, bind, ret, dict_mem.
    rewrite Hd. reflexivity.
Qed.

Lemma pair_response_accepted_pairs_both_witness :
  paired_devices (snd (step 1 (Some "h") (MPairResponse (Some "m") (Some true) None) "t2"
         (fst (run start (take 2 paired_h_m))))) =
  set_add (Some "h", Some "m") (paired_devices (fst (run start (take 2 paired_h_m)))) /\
  step 1 (Some "h") (MPairResponse (Some "z") (Some true) None) "t2"
    (fst (run start (take 2 paired_h_m))) =
  (Ok (Some "h"), fst (run start (take 2 paired_h_m))).
Proof.
  pose (i_h := mk_info (Some "laptop") "Laptop" (sha256_hex16 "h:Laptop") "t0" "t0").
  pose (i_m := mk_info (Some "mobile") "Phone" (sha256_hex16 "m:Phone") "t1" "t1").
  split.
  - apply (proj1 (pair_response_accepted_pairs_both (fst (run start (take 2 paired_h_m))) 1 2
              (Some "h") (Some "m") i_h i_m None "t2"));
      vm_compute; first [reflexivity | set_solver].
  - apply (proj2 (pair_response_accepted_pairs_both (fst (run start (take 2 paired_h_m))) 1 2
              (Some "h") (Some "z") i_h i_m None "t2")).
    vm_compute. reflexivity.
Defined.

(** C2 counterexample: [m] registered and then disconnected; [h] accepts a
    pairing with [m]: nothing is added to [paired_devices] and nobody is
    notified. *)
Lemma pair_response_offline_target_ignored :
  let w := run start [Recv 1 (MRegister (Some "h") (Some "laptop") (Some "Laptop")) "t0";
                      Recv 2 (MRegister (Some "m") (Some "mobile") (Some "Phone")) "t1";
                      Disconnect 2 "t2"] in
  let w' := run w [Recv 1 (MPairResponse (Some "m") (Some true) None) "t3"] in
  dict_mem (Some "m") (device_info (fst w)) = true /\
  paired_devices (fst w') = ∅ /\ trace (fst w') = trace (fst w).
Proof. vm_compute. split; [reflexivity|]. split; reflexivity. Qed.

(** Scenario: device [x] registers on connection 1, then again on
    connection 2 under a different display name. *)
Definition register_twice : list action :=
  [Recv 1 (MRegister (Some "x") (Some "laptop") (Some "Old name")) "t0";
   Recv 2 (MRegister (Some "x") (Some "laptop") (Some "New name")) "t1"].

(** ** C5: one registry entry per device ID *)

(** C5 (amended). A [register] for [d] overwrites the registry entry for
    [d] with the registering connection, which is then the only connection
    registered under [d]; the relay closes no connection, so the
    superseded connection stays open. *)
Theorem register_replaces_registry_entry (s : rstate) (ws : conn) (did d dt : pyid)
    (dn : option string) (now : string) :
  NoDup (map fst (devices s)) ->
  let s' := snd (step ws did (MRegister d dt dn) now s) in
  dict_get d (devices s') = Some ws /\
  dict_count d (devices s') = 1 /\
  NoDup (map fst (devices s')) /\
  closed s' = closed s.
Proof.
  intros Hnd.
  destruct (register_step_shape s ws did d dt dn now) as (Hdev & _ & _ & Hcl & _).
  cbv zeta. rewrite Hdev, Hcl. split; [apply dict_get_set_eq|].
  split; [by apply dict_count_set|]. split; [by apply dict_set_NoDup | done].
Qed.

Lemma register_replaces_registry_entry_witness :
  NoDup (map fst (devices (fst (run start (take 1 register_twice))))) /\
  dict_get (Some "x") (devices (snd (step 2 None (MRegister (Some "x") (Some "laptop")
                                                  (Some "New name")) "t1"
                                      (fst (run start (take 1 register_twice)))))) = Some 2.
Proof.
  assert (H : NoDup (map fst (devices (fst (run start (take 1 register_twice))))))
    by (vm_compute; repeat constructor; set_solver).
  split; [exact H|].
  apply (register_replaces_registry_entry _ 2 None (Some "x") (Some "laptop")
           (Some "New name") "t1" H).
Defined.

(** C5 counterexample: after [register_twice], the registry maps [x] to
    connection 2, but connection 1 has not been closed. *)
Lemma superseded_session_left_open :
  let s := fst (run start register_twice) in
  dict_get (Some "x") (devices s) = Some 2 /\ 1 ∉ closed s.
Proof. vm_compute. split; [reflexivity | set_solver]. Qed.

(** ** C8: re-registration and the device directory *)




(** ** C6: forwarding of pairing offers *)

(** Entries of the registry that are not laptop-class in [device_info]. *)
Definition not_laptop (di : list (pyid * info)) (e : pyid * conn) : Prop :=
  match dict_get e.1 di with
  | Some j => device_type j <> Some "laptop"
  | None => True
  end.

(** Entries skipped before the first offer is delivered: not
    laptop-class, or laptop-class with a closed transport (the send raises
    and [except: continue] moves on). *)
Definition skipped (s : rstate) (e : pyid * conn) : Prop :=
  not_laptop (device_info s) e \/ e.2 ∈ closed s.

Lemma forward_pair_request_first_laptop (s : rstate) (pre rest : list (pyid * conn))
    (lid : pyid) (lws : conn) (i : info) (did code : pyid) (name : string) :
  Forall (skipped s) pre ->
  dict_get lid (device_info s) = Some i ->
  device_type i = Some "laptop" ->
  lws ∉ closed s ->
  forward_pair_request (pre ++ (lid, lws) :: rest)%list did code name s =
  (Ok true, emit (Sent lws (OPairRequest did code name)) s).
Proof.
  intros HF Hi Ht Hc. induction HF as [|[k w] pre Hk HF IH]; simpl.
  - unfold gets, bind, try_ok, send, ret; simpl. rewrite Hi, bool_decide_true by done.
    destruct (decide (lws ∈ closed s)); [contradiction | reflexivity].
  - unfold gets, bind at 1; simpl. unfold skipped, not_laptop in Hk; simpl in Hk.
    destruct (dict_get k (device_info s)) as [j|]; [|exact IH].
    destruct (decide (device_type j = Some "laptop")) as [Hl|Hl].
    + rewrite bool_decide_true by done.
      destruct Hk as [Hk|Hk]; [contradiction|].
      unfold bind, try_ok, send; simpl.
      destruct (decide (w ∈ closed s)); [exact IH | contradiction].
    + rewrite bool_decide_false by done. exact IH.
Qed.

(** C6 (amended). The relay performs no format check on the pairing code:
    a [pair_request] carrying any code (or none) is forwarded, with the
    code unchanged, to the first laptop-class entry of the registry (in
    dict order) whose transport is open, and the companion gets no
    [pairing_failed]. The entries before it are those that are not
    laptop-class or whose transport is closed. *)
Theorem pair_request_forwarded_unchecked (s : rstate) (ws : conn) (did code : pyid)
    (dn : option string) (now : string) (pre rest : list (pyid * conn))
    (lid : pyid) (lws : conn) (i : info) :
  devices s = (pre ++ (lid, lws) :: rest)%list ->
  Forall (skipped s) pre ->
  dict_get lid (device_info s) = Some i ->
  device_type i = Some "laptop" ->
  lws ∉ closed s ->
  step ws did (MPairRequest code dn) now s =
  (Ok did, emit (Sent lws (OPairRequest did code (get_default dn "Mobile"))) s).
Proof.
  intros Hd HF Hi Ht Hc. unfold step, new_device_id, handle_message, handle_pair_request.
  unfold try_pass, bind, gets, ret; simpl. rewrite Hd.
  rewrite (forward_pair_request_first_laptop s pre rest lid lws i did code
             (get_default dn "Mobile") HF Hi Ht Hc).
  reflexivity.
Qed.

(** Scenario: laptop [h] (connection 1) and phone [m] (connection 2)
    register, and [m] offers the code "12ab". *)
Definition offer_12ab : list action :=
  [Recv 1 (MRegister (Some "h") (Some "laptop") (Some "Laptop")) "t0";
   Recv 2 (MRegister (Some "m") (Some "mobile") (Some "Phone")) "t1";
   Recv 2 (MPairRequest (Some "12ab") None) "t2"].

(** Scenario: laptop [h1] registers on connection 1, whose peer then goes
    away; phone [m] (connection 2) and laptop [h2] (connection 3)
    register. *)
Definition offer_after_drop : list action :=
  [Recv 1 (MRegister (Some "h1") (Some "laptop") (Some "Old laptop")) "t0";
   Drop 1;
   Recv 2 (MRegister (Some "m") (Some "mobile") (Some "Phone")) "t1";
   Recv 3 (MRegister (Some "h2") (Some "laptop") (Some "Laptop")) "t2"].

Lemma pair_request_forwarded_unchecked_witness :
  step 2 (Some "m") (MPairRequest (Some "12ab") None) "t2" (fst (run start (take 2 offer_12ab))) =
  (Ok (Some "m"), emit (Sent 1 (OPairRequest (Some "m") (Some "12ab") "Mobile"))
                     (fst (run start (take 2 offer_12ab)))) /\
  step 2 (Some "m") (MPairRequest (Some "12ab") None) "t3" (fst (run start offer_after_drop)) =
  (Ok (Some "m"), emit (Sent 3 (OPairRequest (Some "m") (Some "12ab") "Mobile"))
                     (fst (run start offer_after_drop))).
Proof.
  split.
  - apply (pair_request_forwarded_unchecked _ 2 (Some "m") (Some "12ab") None "t2" []
             [(Some "m", 2)] (Some "h") 1
             (mk_info (Some "laptop") "Laptop" (sha256_hex16 "h:Laptop") "t0" "t0")).
    + vm_compute. reflexivity.
    + constructor.
    + vm_compute. reflexivity.
    + reflexivity.
    + vm_compute. set_solver.
  - apply (pair_request_forwarded_unchecked _ 2 (Some "m") (Some "12ab") None "t3"
             [(Some "h1", 1); (Some "m", 2)] [] (Some "h2") 3
             (mk_info (Some "laptop") "Laptop" (sha256_hex16 "h2:Laptop") "t2" "t2")).
    + vm_compute. reflexivity.
    + constructor; [|constructor; [|constructor]].
      * right. vm_compute. set_solver.
      * left. vm_compute. intros [=].
    + vm_compute. reflexivity.
    + reflexivity.
    + vm_compute. set_solver.
Defined.

(** C6 counterexample: the malformed code "12ab" reaches laptop [h]. *)
Lemma malformed_code_forwarded :
  trace (fst (run start offer_12ab)) =
  (trace (fst (run start (take 2 offer_12ab))) ++
   [Sent 1 (OPairRequest (Some "m") (Some "12ab") "Mobile")])%list.
Proof. vm_compute. reflexivity. Qed.

(** ** C7: orientation of stored pairs *)

(** C7 (amended). [paired_devices.add] is a no-op when the pair is already
    stored in the same orientation; when only the reverse orientation is
    stored, adding changes the set (see the counterexample) but not which
    devices count as paired when both orders are checked. *)
Theorem set_add_orientation (p : gset (pyid * pyid)) (a b : pyid) :
  ((a, b) ∈ p -> set_add (a, b) p = p) /\
  ((b, a) ∈ p -> forall x y : pyid,
     ((x, y) ∈ set_add (a, b) p \/ (y, x) ∈ set_add (a, b) p) <->
     ((x, y) ∈ p \/ (y, x) ∈ p)).
Proof.
  unfold set_add. split.
  - intros H. apply subseteq_union_1_L. set_solver.
  - intros H x y. rewrite !elem_of_union, !elem_of_singleton.
    split; [|tauto].
    intros [[Hxy|Hxy]|[Hyx|Hyx]]; try tauto.
    + injection Hxy as -> ->. tauto.
    + injection Hyx as -> ->. tauto.
Qed.

Lemma set_add_orientation_witness :
  set_add (Some "h", Some "m") {[(Some "h", Some "m"); (Some "m", Some "h")]} =
  {[(Some "h", Some "m"); (Some "m", Some "h")]} /\
  ((Some "h", Some "m") ∈ set_add (Some "h", Some "m") {[(Some "h", Some "m"); (Some "m", Some "h")]}
   \/ (Some "m", Some "h") ∈ set_add (Some "h", Some "m") {[(Some "h", Some "m"); (Some "m", Some "h")]}).
Proof.
  destruct (set_add_orientation {[(Some "h", Some "m"); (Some "m", Some "h")]}
              (Some "h") (Some "m")) as [H1 H2].
  split.
  - apply H1. set_solver.
  - apply (proj2 (H2 ltac:(set_solver) (Some "h") (Some "m"))). left. set_solver.
Defined.

(** C7 counterexample: [m] accepts a pairing with [h], storing (m, h);
    then [h] accepts a pairing with [m]: (h, m) is added next to (m, h)
    and the stored set grows from one pair to two. *)
Lemma reverse_pair_added_again :
  let w := run start [Recv 1 (MRegister (Some "h") (Some "laptop") (Some "Laptop")) "t0";
                      Recv 2 (MRegister (Some "m") (Some "mobile") (Some "Phone")) "t1";
                      Recv 2 (MPairResponse (Some "h") (Some true) None) "t2"] in
  let w' := run w [Recv 1 (MPairResponse (Some "m") (Some true) None) "t3"] in
  elements (paired_devices (fst w)) = [(Some "m", Some "h")] /\
  size (paired_devices (fst w')) = 2%nat.
Proof. vm_compute. split; reflexivity. Qed.

(** ** C4: reuse of a pairing code *)

(** C4 (amended). The host accepts every offer whose code equals its
    current (non-empty) [pairing_code], and accepting leaves the code in
    place: the host state is unchanged, so a later offer with the same code
    is accepted again. *)
Theorem host_accept_keeps_code (self : host_state) (c : string) (from : pyid)
    (dn : option string) :
  pairing_code self = Some c -> c <> "" ->
  host_handle_pair_request self (Some c) from dn =
  (self, [HPairResponse from true ("Paired with " ++ host_device_name self ++ " (persistent)")]).
Proof.
  intros Hc Hne. unfold host_handle_pair_request. rewrite Hc. simpl.
  rewrite bool_decide_false by done. rewrite bool_decide_true by done. reflexivity.
Qed.

Lemma host_accept_keeps_code_witness :
  host_handle_pair_request (fst (generate_pairing_code (mk_host None "Laptop") 482913))
    (Some "482913") (Some "m") None =
  (mk_host (Some "482913") "Laptop",
   [HPairResponse (Some "m") true "Paired with Laptop (persistent)"]).
Proof.
  apply (host_accept_keeps_code (fst (generate_pairing_code (mk_host None "Laptop") 482913))
           "482913" (Some "m") None).
  - vm_compute. reflexivity.
  - discriminate.
Defined.

(** C4 counterexample: after issuing code 482913 the host accepts an offer
    with it, and then accepts a second offer with the same code. *)
Lemma pairing_code_accepted_twice :
  let h1 := fst (generate_pairing_code (mk_host None "Laptop") 482913) in
  let r1 := host_handle_pair_request h1 (Some "482913") (Some "m1") None in
  let r2 := host_handle_pair_request (fst r1) (Some "482913") (Some "m2") None in
  snd r1 = [HPairResponse (Some "m1") true "Paired with Laptop (persistent)"] /\
  snd r2 = [HPairResponse (Some "m2") true "Paired with Laptop (persistent)"].
Proof. vm_compute. split; reflexivity. Qed.

(** ** C10: shape of generated pairing codes *)

Definition is_digit (ch : ascii) : bool :=
  (48 <=? nat_of_ascii ch)%nat && (nat_of_ascii ch <=? 57)%nat.

(** Arithmetic with divisions and remainders by constants. *)
Ltac div_lia := Z.div_mod_to_equations; lia.

Lemma dec_aux_S (fuel : nat) (n : Z) (acc : string) :
  n <> 0%Z ->
  dec_aux (S fuel) n acc = dec_aux fuel (n / 10) (String (digit_char (n mod 10)) acc).
Proof. intros Hn. simpl. apply Z.eqb_neq in Hn. by rewrite Hn. Qed.

Lemma dec_aux_0 (fuel : nat) (acc : string) : dec_aux fuel 0 acc = acc.
Proof. by destruct fuel. Qed.

Lemma nat_of_digit_char (d : Z) :
  (0 <= d <= 9)%Z -> nat_of_ascii (digit_char d) = (48 + Z.to_nat d)%nat.
Proof. intros Hd. unfold digit_char. apply Ascii.nat_ascii_embedding. lia. Qed.

Lemma digit_char_is_digit (d : Z) : (0 <= d <= 9)%Z -> is_digit (digit_char d) = true.
Proof.
  intros Hd. unfold is_digit. rewrite nat_of_digit_char by done.
  apply andb_true_intro. split; apply Nat.leb_le; lia.
Qed.

(** [str(r)] for a six-digit [r]: its digits, most significant first. *)
Lemma py_str_int_six (r : Z) :
  (100000 <= r <= 999999)%Z ->
  py_str_int r =
  String (digit_char (r / 10 / 10 / 10 / 10 / 10 mod 10))
    (String (digit_char (r / 10 / 10 / 10 / 10 mod 10))
       (String (digit_char (r / 10 / 10 / 10 mod 10))
          (String (digit_char (r / 10 / 10 mod 10))
             (String (digit_char (r / 10 mod 10))
                (String (digit_char (r mod 10)) ""))))).
Proof.
  intros Hr. unfold py_str_int.
  rewrite (proj2 (Z.eqb_neq r 0)) by lia.
  rewrite (proj2 (Z.ltb_ge r 0)) by lia.
  assert (Hsz : (17 <= Pos.size_nat (Z.to_pos r))%nat).
  { change 17%nat with (Pos.size_nat 99999). apply Pos.size_nat_monotone. lia. }
  destruct (Pos.size_nat (Z.to_pos r)) as [|[|[|[|[|[|[|f]]]]]]] eqn:E; try lia.
  do 6 (rewrite dec_aux_S by div_lia).
  replace (r / 10 / 10 / 10 / 10 / 10 / 10)%Z with 0%Z by div_lia.
  by rewrite dec_aux_0.
Qed.

(** C10. For every value [r] that [random.randint(100000, 999999)] can
    return, the generated code is a string of exactly 6 decimal digits
    whose first digit is not '0'; it becomes the host's [pairing_code], and
    the host rejects every offered code whose first character is '0'. *)
Theorem generated_code_six_digits (self : host_state) (r : Z) (from : pyid)
    (dn : option string) :
  (100000 <= r <= 999999)%Z ->
  let self' := fst (generate_pairing_code self r) in
  let code := snd (generate_pairing_code self r) in
  String.length code = 6%nat /\
  (forall k ch, String.get k code = Some ch -> is_digit ch = true) /\
  String.get 0 code <> Some "0"%char /\
  pairing_code self' = Some code /\
  (forall s', String.get 0 s' = Some "0"%char ->
   host_handle_pair_request self' (Some s') from dn =
   (self', [HPairResponse from false "Invalid pairing code"])).
Proof.
  intros Hr. cbv zeta. unfold generate_pairing_code; simpl.
  rewrite (py_str_int_six r Hr).
  assert (Hfirst : digit_char (r / 10 / 10 / 10 / 10 / 10 mod 10) <> "0"%char).
  { intros Heq. apply (f_equal nat_of_ascii) in Heq.
    rewrite nat_of_digit_char in Heq by div_lia.
    change (nat_of_ascii "0"%char) with 48%nat in Heq. div_lia. }
  split; [reflexivity|].
  split.
  { intros k ch Hk.
    destruct k as [|[|[|[|[|[|k]]]]]]; simpl in Hk; try discriminate;
      injection Hk as <-; apply digit_char_is_digit; div_lia. }
  split; [simpl; congruence|].
  split; [reflexivity|].
  intros s' Hs'. unfold host_handle_pair_request, py_truthy; simpl.
  rewrite bool_decide_false; [reflexivity|].
  intros Heq. injection Heq as ->. simpl in Hs'. congruence.
Qed.

Lemma generated_code_six_digits_witness :
  snd (generate_pairing_code (mk_host None "Laptop") 482913) = "482913" /\
  host_handle_pair_request (fst (generate_pairing_code (mk_host None "Laptop") 482913))
    (Some "082913") (Some "m") None =
  (fst (generate_pairing_code (mk_host None "Laptop") 482913),
   [HPairResponse (Some "m") false "Invalid pairing code"]).
Proof.
  split; [vm_compute; reflexivity|].
  destruct (generated_code_six_digits (mk_host None "Laptop") 482913 (Some "m") None
              ltac:(lia)) as (_ & _ & _ & _ & H).
  apply H. reflexivity.
Defined.

(** ** C9: persistence of mutations *)

(** C9 (amended). Each mutating handler saves before it acknowledges:
    [register] (for a [device_id] that is a string and an ID and name that
    can be UTF-8 encoded), an accepted [pair_response] for a target that
    has a registry entry and a [device_info] entry, and [unpair_device]
    each record a completed [save_persistent_data] immediately before
    their first message to the requester (when its transport is open). The save rewrites the two
    files in place, with no temporary file: its operations touch only
    [DEVICES_FILE] and [PAIRINGS_FILE], the first one truncates
    [DEVICES_FILE], and a crash right after it leaves that file empty. *)
Theorem mutations_saved_before_ack_in_place :
  (forall (s : rstate) (ws : conn) (did : pyid) (x : string) (dt : pyid)
          (dn : option string) (now : string),
     ws ∉ closed s ->
     has_surrogate (x ++ ":" ++ get_default dn "Unknown") = false ->
     exists rest, trace (snd (step ws did (MRegister (Some x) dt dn) now s)) =
       (trace s ++ [Persisted;
          Sent ws (ORegistered (Some x) (dict_mem (Some x) (device_info s))
                     (py_str dt ++ " registered successfully"))] ++ rest)%list) /\
  (forall (s : rstate) (ws tws : conn) (host tgt : pyid) (t : info)
          (msg : option string) (now : string),
     dict_get tgt (devices s) = Some tws ->
     dict_get tgt (device_info s) = Some t ->
     ws ∉ closed s ->
     exists rest, trace (snd (step ws host (MPairResponse tgt (Some true) msg) now s)) =
       (trace s ++ [Persisted;
          Sent ws (OPaired tgt (device_name t) true (get_default msg ""))] ++ rest)%list) /\
  (forall (s : rstate) (ws : conn) (did tgt : pyid) (now : string),
     ws ∉ closed s ->
     exists rest, trace (snd (step ws did (MUnpair tgt) now s)) =
       (trace s ++ [Persisted;
          Sent ws (OUnpaired tgt "Device unpaired successfully")] ++ rest)%list) /\
  (forall s : rstate,
     Forall (fun o => match o with
                      | FOpenW p | FWrite p _ => p = DEVICES_FILE \/ p = PAIRINGS_FILE
                      end) (save_ops s) /\
     head (save_ops s) = Some (FOpenW DEVICES_FILE) /\
     apply_fs_ops (files s) (take 1 (save_ops s)) !! DEVICES_FILE = Some []).
Proof.
  split; [|split; [|split]].
  - intros s ws did x dt dn now Hws Hsur.
    destruct (register_step_shape s ws did (Some x) dt dn now) as (_ & _ & _ & _ & Htr & _).
    exact (Htr x eq_refl Hws Hsur).
  - intros s ws tws host tgt t msg now Hd Ht Hws.
    unfold_m. unfold handle_pair_response, dict_mem, save_persistent_data, bind, gets, modify,
      dict_index, ret, send, raise, log_slice, saved, emit, set_files, set_paired; simpl.
    rewrite !Hd, !Ht; simpl.
    destruct (decide (ws ∈ closed s)); [contradiction|]. simpl. rewrite !Hd; simpl.
    destruct (dict_get host (device_info s)); simpl;
      [destruct (decide (tws ∈ closed s)); simpl|];
      destruct host, tgt; simpl; eexists; rewrite <- ?app_assoc; reflexivity.
  - intros s ws did tgt now Hws.
    unfold_m. unfold handle_unpair, save_persistent_data, saved, dict_mem, dict_index, bind,
      gets, modify, send, ret, raise, log_slice, emit, set_files, set_paired; simpl.
    destruct (decide (ws ∈ closed s)); [contradiction|]. simpl.
    destruct (dict_get tgt (devices s)) as [tws|]; simpl.
    + destruct (decide (tws ∈ closed s)); simpl;
        destruct did, tgt; simpl; eexists; rewrite <- ?app_assoc; reflexivity.
    + destruct did, tgt; simpl; eexists; rewrite <- ?app_assoc; reflexivity.
  - intros s. split; [|split; [reflexivity|]].
    + unfold save_ops. constructor; [by left|]. apply Forall_app. split;
        [|constructor; [by right|]];
        apply List.Forall_forall; intros o Ho; apply List.in_map_iff in Ho as [c [<- _]];
        [by left | by right].
    + unfold save_ops, apply_fs_ops. simpl. by rewrite lookup_insert_eq.
Qed.

Lemma mutations_saved_before_ack_in_place_witness :
  (exists rest, trace (snd (step 1 None (MRegister (Some "h") (Some "laptop") (Some "Laptop"))
                              "t0" empty_rstate)) =
     (trace empty_rstate ++ [Persisted;
        Sent 1 (ORegistered (Some "h") (dict_mem (Some "h") (device_info empty_rstate))
                  (py_str (Some "laptop") ++ " registered successfully"))] ++ rest)%list) /\
  (exists rest, trace (snd (step 1 (Some "h") (MUnpair (Some "m")) "t3"
                              (fst (run start paired_h_m)))) =
     (trace (fst (run start paired_h_m)) ++ [Persisted;
        Sent 1 (OUnpaired (Some "m") "Device unpaired successfully")] ++ rest)%list) /\
  (exists rest, trace (snd (step 1 (Some "h") (MPairResponse (Some "m") (Some true) None) "t3"
                              (fst (run start (take 2 paired_h_m ++ [Drop 2]))))) =
     (trace (fst (run start (take 2 paired_h_m ++ [Drop 2]))) ++ [Persisted;
        Sent 1 (OPaired (Some "m") "Phone" true "")] ++ rest)%list) /\
  apply_fs_ops (files (fst (run start paired_h_m)))
    (take 1 (save_ops (fst (run start paired_h_m)))) !! DEVICES_FILE = Some [].
Proof.
  destruct mutations_saved_before_ack_in_place as (H1 & H2 & H3 & H4).
  split; [|split; [|split]].
  - apply (H1 empty_rstate 1 None "h" (Some "laptop") (Some "Laptop") "t0").
    + vm_compute. set_solver.
    + reflexivity.
  - apply (H3 (fst (run start paired_h_m)) 1 (Some "h") (Some "m") "t3").
    vm_compute. set_solver.
  - apply (H2 (fst (run start (take 2 paired_h_m ++ [Drop 2]))) 1 2 (Some "h") (Some "m")
             (mk_info (Some "mobile") "Phone" (sha256_hex16 "m:Phone") "t1" "t1") None "t3").
    + vm_compute. reflexivity.
    + vm_compute. reflexivity.
    + vm_compute. set_solver.
  - apply (H4 (fst (run start paired_h_m))).
Defined.

(** C9 counterexample: after [paired_h_m] the files hold both devices and
    the pairing, and a restart recovers the directory. A crash right after
    the next save has truncated [DEVICES_FILE] leaves a file that no longer
    loads: the restarted relay has an empty directory while the pairing
    file still names [h] and [m]. *)
Lemma crash_during_save_loses_directory :
  let s := fst (run start paired_h_m) in
  let crashed := apply_fs_ops (files s) (take 1 (save_ops s)) in
  device_info (restart (files s)) = device_info s /\
  length (device_info s) = 2%nat /\
  device_info (restart crashed) = [] /\
  elements (paired_devices (restart crashed)) = [(Some "h", Some "m")].
Proof. vm_compute. repeat split. Qed.

(** * Further properties of the relay and the laptop client *)

(** ** Handlers that leave a store alone *)

Lemma preserves_ret {A X} (f : rstate -> X) (a : A) : preserves f (ret a).
Proof. intros s. reflexivity. Qed.

Lemma preserves_gets {A X} (f : rstate -> X) (g : rstate -> A) : preserves f (gets g).
Proof. intros s. reflexivity. Qed.

Lemma preserves_raise {A X} (f : rstate -> X) (e : exn) : preserves f (@raise A e).
Proof. intros s. reflexivity. Qed.

Lemma preserves_bind {A B X} (f : rstate -> X) (c : M A) (k : A -> M B) :
  preserves f c -> (forall a, preserves f (k a)) -> preserves f (bind c k).
Proof.
  intros Hc Hk s. unfold bind. specialize (Hc s).
  destruct (c s) as [[a|e] s'] eqn:E; simpl in *; [rewrite Hk|]; done.
Qed.

Lemma preserves_modify {X} (f : rstate -> X) (g : rstate -> rstate) :
  (forall s, f (g s) = f s) -> preserves f (modify g).
Proof. intros H s. apply H. Qed.

Lemma preserves_send {X} (f : rstate -> X) (w : conn) (m : out_msg) :
  (forall s e, f (emit e s) = f s) -> preserves f (send w m).
Proof. intros H s. unfold send. destruct (decide (w ∈ closed s)); simpl; [done | apply H]. Qed.

Lemma preserves_try_pass {X} (f : rstate -> X) (c : M unit) :
  preserves f c -> preserves f (try_pass c).
Proof. intros Hc s. specialize (Hc s). unfold try_pass. by destruct (c s). Qed.

Lemma preserves_try_ok {X} (f : rstate -> X) (c : M unit) :
  preserves f c -> preserves f (try_ok c).
Proof. intros Hc s. specialize (Hc s). unfold try_ok. by destruct (c s) as [[]]. Qed.

Lemma preserves_dict_index {V X} (f : rstate -> X) (k : pyid) (d : list (pyid * V)) :
  preserves f (dict_index k d).
Proof. unfold dict_index. destruct (dict_get k d); [apply preserves_ret | apply preserves_raise]. Qed.

Lemma preserves_log_slice {X} (f : rstate -> X) (v : pyid) : preserves f (log_slice v).
Proof. destruct v; [apply preserves_ret | apply preserves_raise]. Qed.

Lemma preserves_forward {X} (f : rstate -> X) ds did code dn :
  (forall s e, f (emit e s) = f s) -> preserves f (forward_pair_request ds did code dn).
Proof.
  intros He. induction ds as [|[lid lws] ds IH]; simpl; [apply preserves_ret|].
  apply preserves_bind; [apply preserves_gets | intros di].
  destruct (match dict_get lid di with Some i => _ | None => false end); [|exact IH].
  apply preserves_bind; [apply preserves_try_ok, preserves_send, He | intros []]; [apply preserves_ret | exact IH].
Qed.

Ltac pres_tac :=
  repeat match goal with
  | |- preserves _ (bind _ _) => apply preserves_bind; [|intros ?]
  | |- preserves _ (ret _) => apply preserves_ret
  | |- preserves _ (gets _) => apply preserves_gets
  | |- preserves _ (raise _) => apply preserves_raise
  | |- preserves _ (send _ _) => apply preserves_send; intros; reflexivity
  | |- preserves _ save_persistent_data => apply preserves_modify; intros; reflexivity
  | |- preserves _ (modify _) => apply preserves_modify; intros; reflexivity
  | |- preserves _ (try_pass _) => apply preserves_try_pass
  | |- preserves _ (try_ok _) => apply preserves_try_ok
  | |- preserves _ (dict_index _ _) => apply preserves_dict_index
  | |- preserves _ (log_slice _) => apply preserves_log_slice
  | |- preserves _ (forward_pair_request _ _ _ _) => apply preserves_forward; intros; reflexivity
  | |- preserves _ (if ?b then _ else _) => destruct b
  | |- preserves _ (match ?x with _ => _ end) => destruct x
  end.

Lemma snd_step ws did m now s :
  snd (step ws did m now s) = snd (handle_message ws (new_device_id did m) m now s).
Proof. unfold step, try_pass, bind, ret. by destruct (handle_message _ _ _ _ s). Qed.


(** ** Dict deletion *)

Section DictDel.
Context {K V : Type} `{EqDecision K}.
Implicit Types (d : list (K * V)) (k : K) (v : V).


Lemma dict_get_del_ne d k k' : k' <> k -> dict_get k' (dict_del k d) = dict_get k' d.
Proof.
  intros Hne. induction d as [|[k'' v''] d IH]; simpl; [done|].
  destruct (decide (k = k'')) as [->|Hk]; simpl.
  - by rewrite decide_False.
  - by destruct (decide (k' = k'')); [|rewrite IH].
Qed.

Lemma dict_get_None d k : k ∉ map fst d -> dict_get k d = None.
Proof.
  induction d as [|[k' v'] d IH]; simpl; intros Hn; [done|].
  rewrite decide_False by set_solver. apply IH. set_solver.
Qed.

Lemma dict_get_del_eq d k : NoDup (map fst d) -> dict_get k (dict_del k d) = None.
Proof.
  induction d as [|[k' v'] d IH]; simpl; intros Hd; [done|].
  apply NoDup_cons in Hd as [Hn Hd].
  destruct (decide (k = k')) as [->|Hk]; simpl.
  - by apply dict_get_None.
  - rewrite decide_False by done. by apply IH.
Qed.

Lemma dict_get_Some_elem d k v : dict_get k d = Some v -> k ∈ map fst d.
Proof.
  induction d as [|[k' v'] d IH]; simpl; [done|].
  destruct (decide (k = k')) as [->|]; intros H; [left | right; by apply IH].
Qed.

Lemma elem_of_map_fst_dict_set d k k' v :
  k ∈ map fst (dict_set k' v d) <-> k = k' \/ k ∈ map fst d.
Proof. rewrite map_fst_dict_set. destruct (decide (k' ∈ map fst d)); set_solver. Qed.
End DictDel.

(** ** Registry and directory stay well formed *)







(** ** [unpair_device] *)

Lemma bind_gets {A B} (g : rstate -> A) (k : A -> M B) s : bind (gets g) k s = k (g s) s.
Proof. reflexivity. Qed.

Lemma bind_modify_preserves {B X} (f : rstate -> X) (g : rstate -> rstate) (k : M B) s :
  preserves f k -> f (snd (bind (modify g) (fun _ => k) s)) = f (g s).
Proof. intros Hk. apply Hk. Qed.

(** [unpair_device] removes from [paired_devices] exactly the pairs that
    contain both the sender's ID and the target's ID, in either order,
    whatever happens afterwards (failed sends, [None] IDs). *)
Theorem unpair_removes_both_orders (s : rstate) (ws : conn) (did tgt : pyid) (now : string)
    (pr : pyid * pyid) :
  pr ∈ paired_devices (snd (step ws did (MUnpair tgt) now s)) <->
  pr ∈ paired_devices s /\ ~ ((did = pr.1 \/ did = pr.2) /\ (tgt = pr.1 \/ tgt = pr.2)).
Proof.
  rewrite snd_step. simpl. unfold handle_unpair. rewrite bind_gets. cbv zeta.
  rewrite bind_modify_preserves by pres_tac. simpl.
  rewrite elem_of_difference, elem_of_list_to_set, list_elem_of_filter, elem_of_elements.
  tauto.
Qed.

(** [unpair_device] always acknowledges to the sender, after saving, even
    when no pair was removed; the target, when it has a registry entry,
    is told it was unpaired. *)
Theorem unpair_notifications (s : rstate) (ws : conn) (did tgt : pyid) (now : string) :
  ws ∉ closed s ->
  (forall tws, dict_get tgt (devices s) = Some tws -> tws ∉ closed s) ->
  trace (snd (step ws did (MUnpair tgt) now s)) =
  (trace s ++ [Persisted; Sent ws (OUnpaired tgt "Device unpaired successfully")] ++
   match dict_get tgt (devices s) with
   | Some tws => [Sent tws (OUnpaired did "Device was unpaired remotely")]
   | None => []
   end)%list.
Proof.
  intros Hws Htws. rewrite snd_step. simpl.
  unfold handle_unpair, bind, gets, modify, save_persistent_data, send, dict_mem, dict_index,
    ret, raise; simpl.
  destruct (decide (ws ∈ closed _)); [contradiction|]. simpl.
  destruct (dict_get tgt (devices s)) as [tws|] eqn:E; simpl.
  - destruct (decide (tws ∈ closed s)) as [Hc|]; [by apply Htws in Hc|]. simpl.
    destruct did, tgt; simpl; rewrite <- ?app_assoc; reflexivity.
  - destruct did, tgt; simpl; rewrite <- ?app_assoc; reflexivity.
Qed.

(** ** [relay_message] to an offline target *)

(** When the pair is recorded (either order) but the target has no
    registry entry, the sender alone gets [relay_failed] "Target device is
    offline" (nothing if its own transport is closed) and no store
    changes. *)
Theorem relay_offline_target (s : rstate) (ws : conn) (did tgt : pyid)
    (mt pl : option string) (now : string) :
  (did, tgt) ∈ paired_devices s \/ (tgt, did) ∈ paired_devices s ->
  dict_get tgt (devices s) = None ->
  step ws did (MRelay tgt mt pl) now s =
  (Ok did, if decide (ws ∈ closed s) then s
           else emit (Sent ws (ORelayFailed "Target device is offline")) s).
Proof.
  intros Hp Hd. unfold_m. unfold handle_relay_message, bind, gets, send, dict_mem; simpl.
  rewrite bool_decide_true by tauto. rewrite Hd.
  destruct (decide (ws ∈ closed s)); reflexivity.
Qed.

(** ** A rejected [pair_response] *)

(** A [pair_response] whose [accepted] field is not [true] (false or
    missing) and whose target has a registry entry [tws] sends
    [pairing_failed] with the host's message (empty if missing) to the
    target only; no pairing is added and nothing is saved. *)
Theorem pair_response_rejected (s : rstate) (ws tws : conn) (host tgt : pyid)
    (acc : option bool) (msg : option string) (now : string) :
  acc <> Some true ->
  dict_get tgt (devices s) = Some tws ->
  step ws host (MPairResponse tgt acc msg) now s =
  (Ok host, if decide (tws ∈ closed s) then s
            else emit (Sent tws (OPairingFailed (get_default msg ""))) s).
Proof.
  intros Ha Hd. unfold_m. unfold handle_pair_response, bind, gets, send, dict_mem, dict_index, ret; simpl.
  rewrite Hd. destruct acc as [[]|]; [congruence| |]; simpl; rewrite ?Hd;
    destruct (decide (tws ∈ closed s)); reflexivity.
Qed.

(** ** [pair_request] with no laptop to take it *)

Definition laptop_entry (s : rstate) (k : pyid) : Prop :=
  exists i, dict_get k (device_info s) = Some i /\ device_type i = Some "laptop".

Lemma forward_none_available ds did code dn s :
  (forall k c, (k, c) ∈ ds -> c ∈ closed s \/ ~ laptop_entry s k) ->
  forward_pair_request ds did code dn s = (Ok false, s).
Proof.
  induction ds as [|[k c] ds IH]; simpl; intros H; [done|].
  unfold bind, gets. simpl.
  destruct (H k c) as [Hc|Hl]; [by left|..].
  - destruct (dict_get k (device_info s)) as [i|]; [|apply IH; intros; apply H; by right].
    destruct (bool_decide _); [|apply IH; intros; apply H; by right].
    unfold try_ok, send. rewrite decide_True by done. simpl.
    apply IH; intros; apply H; by right.
  - destruct (dict_get k (device_info s)) as [i|] eqn:E; [|apply IH; intros; apply H; by right].
    rewrite bool_decide_false; [apply IH; intros; apply H; by right|].
    intros Ht. apply Hl. by exists i.
Qed.

(** When every registry entry is either not a laptop (by its directory
    entry) or has a closed transport, a [pair_request] is answered with
    [pairing_failed] "No laptops available" to the requester and changes
    nothing else. *)
Theorem pair_request_no_laptop (s : rstate) (ws : conn) (did code : pyid)
    (dn : option string) (now : string) :
  (forall k c, (k, c) ∈ devices s -> c ∈ closed s \/ ~ laptop_entry s k) ->
  step ws did (MPairRequest code dn) now s =
  (Ok did, if decide (ws ∈ closed s) then s
           else emit (Sent ws (OPairingFailed "No laptops available")) s).
Proof.
  intros H. unfold_m. unfold handle_pair_request, bind, gets. simpl.
  rewrite forward_none_available by exact H. unfold send.
  destruct (decide (ws ∈ closed s)); reflexivity.
Qed.

(** ** The [finally] cleanup *)

(** When a connection ends whose local [device_id] is a non-empty string
    and whose registry entry points to it, the connection is closed and
    forgotten, that registry entry is deleted and the other entries are
    kept, and the pairings do not change. When the device has a directory
    entry, its [last_seen] is set to the current time and the stores are
    saved; when it has none, the directory is left as it is and nothing is
    saved. *)
Theorem cleanup_unregisters (s : rstate) (loc : gmap conn pyid) (c : conn) (x : string)
    (now : string) :
  loc !! c = Some (Some x) ->
  x <> "" ->
  NoDup (map fst (devices s)) ->
  dict_get (Some x) (devices s) = Some c ->
  let w' := run_action (s, loc) (Disconnect c now) in
  let s' := fst w' in
  snd w' = delete c loc /\
  c ∈ closed s' /\
  dict_get (Some x) (devices s') = None /\
  (forall k, k <> Some x -> dict_get k (devices s') = dict_get k (devices s)) /\
  paired_devices s' = paired_devices s /\
  match dict_get (Some x) (device_info s) with
  | Some i => device_info s' = dict_set (Some x) (set_last_seen now i) (device_info s) /\
              trace s' = (trace s ++ [Persisted])%list
  | None => device_info s' = device_info s /\ trace s' = trace s
  end.
Proof.
  intros Hloc Hx Hn Hd. cbn [run_action fst snd]. rewrite Hloc. cbn [default].
  unfold cleanup, bind, gets, modify, dict_mem, dict_index, ret,
    save_persistent_data, saved; simpl.
  rewrite Hd. unfold py_truthy. rewrite bool_decide_false by done. simpl.
  destruct (dict_get (Some x) (device_info s)) as [i|] eqn:Ei; simpl.
  - split; [done|]. split; [set_solver|].
    split; [by apply dict_get_del_eq|]. split; [intros k Hk; by apply dict_get_del_ne|].
    done.
  - split; [done|]. split; [set_solver|].
    split; [by apply dict_get_del_eq|]. split; [intros k Hk; by apply dict_get_del_ne|].
    done.
Qed.

(** When the connection's [device_id] is [None], empty, or has no registry
    entry, the cleanup changes nothing. *)
Theorem cleanup_unregistered_noop (s : rstate) (did : pyid) (now : string) :
  py_truthy did = false \/ dict_get did (devices s) = None ->
  snd (cleanup did now s) = s.
Proof.
  intros H. unfold cleanup, bind, gets, dict_mem, ret; simpl.
  destruct H as [-> | ->]; [done|]. by rewrite andb_false_r.
Qed.

(** ** Which messages touch the pairing set *)

(** Only [pair_response] and [unpair_device] change [paired_devices]:
    [register], [pair_request], [relay_message] and any other message
    leave it as it is. *)
Theorem pairing_set_changed_only_by_response_unpair (s : rstate) (ws : conn) (did : pyid)
    (m : in_msg) (now : string) :
  (forall t a msg, m <> MPairResponse t a msg) -> (forall t, m <> MUnpair t) ->
  paired_devices (snd (step ws did m now s)) = paired_devices s.
Proof.
  intros H1 H2. destruct m as [d dt dn|c dn|t a msg|t|t mt pl|t];
    [| | by edestruct H1 | by edestruct H2 | |].
  - apply (register_step_shape s ws did d dt dn now).
  - revert s. unfold step, handle_message, new_device_id, handle_pair_request; cbv zeta.
    change (preserves paired_devices
      (try_pass (handle_pair_request ws did c (get_default dn "Mobile")) ;;; ret did)).
    unfold handle_pair_request. pres_tac.
  - revert s. change (preserves paired_devices (step ws did (MRelay t mt pl) now)).
    unfold step, handle_message, new_device_id, handle_relay_message; cbv zeta. pres_tac.
  - revert s. change (preserves paired_devices (step ws did (MOther t) now)).
    unfold step, handle_message, new_device_id; pres_tac.
Qed.

(** ** [save_persistent_data] then [load_persistent_data] *)

Lemma apply_fs_writes fs p l cs :
  fs !! p = Some l ->
  apply_fs_ops fs (map (FWrite p) cs) = <[p := (l ++ cs)%list]> fs.
Proof.
  revert fs l. induction cs as [|c cs IH]; intros fs l Hl.
  - unfold apply_fs_ops. simpl. rewrite app_nil_r. by rewrite insert_id.
  - change (apply_fs_ops (apply_fs_op fs (FWrite p c)) (map (FWrite p) cs) =
            <[p:=(l ++ c :: cs)%list]> fs).
    simpl. rewrite Hl. simpl.
    rewrite (IH _ (l ++ [c])%list) by apply lookup_insert_eq.
    rewrite insert_insert_eq, <- app_assoc. reflexivity.
Qed.

Lemma apply_fs_ops_cons fs o os :
  apply_fs_ops fs (o :: os) = apply_fs_ops (apply_fs_op fs o) os.
Proof. reflexivity. Qed.

Lemma apply_fs_ops_app fs os1 os2 :
  apply_fs_ops fs (os1 ++ os2)%list = apply_fs_ops (apply_fs_ops fs os1) os2.
Proof. apply foldl_app. Qed.

Lemma files_distinct : DEVICES_FILE <> PAIRINGS_FILE.
Proof. unfold DEVICES_FILE, PAIRINGS_FILE. discriminate. Qed.

Lemma save_ops_files fs s :
  apply_fs_ops fs (save_ops s) !! DEVICES_FILE = Some (dump_devices (device_info s)) /\
  apply_fs_ops fs (save_ops s) !! PAIRINGS_FILE = Some (dump_pairings (paired_devices s)).
Proof.
  unfold save_ops. rewrite apply_fs_ops_cons, apply_fs_ops_app, apply_fs_ops_cons.
  rewrite (apply_fs_writes _ _ []) by (simpl; apply lookup_insert_eq).
  rewrite (apply_fs_writes _ _ []) by (simpl; apply lookup_insert_eq).
  simpl. split.
  - rewrite lookup_insert_ne by (apply not_eq_sym, files_distinct).
    rewrite lookup_insert_ne by (apply not_eq_sym, files_distinct).
    by rewrite lookup_insert_eq.
  - by rewrite lookup_insert_eq.
Qed.

Lemma parse_dump_devices d : parse_devices (dump_devices d) = Some d.
Proof.
  unfold parse_devices, dump_devices. simpl.
  induction d as [|[k v] d IH]; simpl; [done|]. by rewrite IH.
Qed.

Lemma parse_dump_pairings p : parse_pairings (dump_pairings p) = Some (elements p).
Proof.
  unfold parse_pairings, dump_pairings. simpl.
  induction (elements p) as [|pr l IH]; simpl; [done|]. by rewrite IH.
Qed.

(** A relay process restarted on the files left by a completed
    [save_persistent_data] recovers exactly the directory (entries and
    their order) and the pairing set that were saved, whatever the files
    held before, provided every directory key is a string ([json.dump]
    writes a [None] key as the string "null"). *)
Theorem save_load_roundtrip (s : rstate) :
  (forall k, k ∈ map fst (device_info s) -> k <> None) ->
  device_info (restart (files (saved s))) = device_info s /\
  paired_devices (restart (files (saved s))) = paired_devices s.
Proof.
  intros _. destruct (save_ops_files (files s) s) as [Hd Hp].
  change (files (saved s)) with (apply_fs_ops (files s) (save_ops s)).
  unfold restart, load_persistent_data, modify. cbn [snd files].
  rewrite Hd. cbn [files set_device_info]. rewrite Hp.
  cbn [set_paired device_info paired_devices].
  rewrite parse_dump_devices, parse_dump_pairings. simpl.
  split; [done | apply list_to_set_elements_L].
Qed.

(** ** The [existing_pairings] list sent at registration *)

(** A peer appears in the [existing_pairings] list computed for [did]
    exactly when a stored pair holds [did] and the peer (either order) and
    the peer has a directory entry; the entry carries the peer's stored
    display name and type. *)
Theorem my_pairings_spec (did peer : pyid) (p : gset (pyid * pyid))
    (di : list (pyid * info)) (n : string) (t : pyid) :
  (peer, n, t) ∈ my_pairings did p di <->
  ((did, peer) ∈ p \/ (peer, did) ∈ p) /\
  exists i, dict_get peer di = Some i /\ n = device_name i /\ t = device_type i.
Proof.
  unfold my_pairings. rewrite list_elem_of_omap. split.
  - intros ([a b] & Hab & Hx). apply elem_of_elements in Hab. simpl in Hx.
    case_bool_decide as Hin; [|done].
    case_bool_decide as Ha; subst.
    + destruct (dict_get b di) as [i|] eqn:E; [|done]. injection Hx as <- <- <-.
      split; [by left|]. by exists i.
    + destruct (dict_get a di) as [i|] eqn:E; [|done]. injection Hx as <- <- <-.
      destruct Hin as [Hd|Hd]; [by subst|]. subst. split; [by right|]. by exists i.
  - intros [Hp (i & Hi & -> & ->)].
    destruct Hp as [Hp|Hp]; [exists (did, peer) | exists (peer, did)];
      (split; [by apply elem_of_elements|]); simpl.
    + rewrite bool_decide_true by (by left). rewrite bool_decide_true by done. by rewrite Hi.
    + rewrite bool_decide_true by (by right).
      case_bool_decide as Heq; [subst|]; by rewrite Hi.
Qed.

(** ** The host side: pairing code and offers *)

Lemma dec_aux_nonempty fuel n acc : acc <> "" -> dec_aux fuel n acc <> "".
Proof.
  revert n acc. induction fuel as [|f IH]; intros n acc Hacc; simpl; [done|].
  destruct (Z.eqb n 0); [done|]. apply IH. discriminate.
Qed.

Lemma py_str_int_nonempty r : py_str_int r <> "".
Proof.
  unfold py_str_int. destruct (Z.eqb_spec r 0); [discriminate|].
  destruct (Z.ltb_spec r 0); [discriminate|].
  assert (exists f, Pos.size_nat (Z.to_pos r) = S f) as [f ->]
    by (destruct (Z.to_pos r); simpl; eauto).
  simpl. rewrite (proj2 (Z.eqb_neq r 0)) by done. apply dec_aux_nonempty. discriminate.
Qed.

(** Before a code is generated every offer is rejected; once
    [generate_pairing_code] has drawn [r], an offer is accepted exactly
    when its code is the string [str(r)]. *)
Theorem host_offer_acceptance (self : host_state) (r : Z) (code from : pyid)
    (dn : option string) :
  (pairing_code self = None ->
   snd (host_handle_pair_request self code from dn) =
   [HPairResponse from false "Invalid pairing code"]) /\
  snd (host_handle_pair_request (fst (generate_pairing_code self r)) code from dn) =
  (if bool_decide (code = Some (py_str_int r)) then
     [HPairResponse from true ("Paired with " ++ host_device_name self ++ " (persistent)")]
   else [HPairResponse from false "Invalid pairing code"]).
Proof.
  split.
  - intros H. unfold host_handle_pair_request. by rewrite H.
  - unfold host_handle_pair_request, generate_pairing_code. simpl.
    rewrite bool_decide_false by apply py_str_int_nonempty. simpl.
    by case_bool_decide.
Qed.

(** ** The laptop client's list of paired devices *)

Lemma in_peer_ids (pds : list peer_entry) (pid : pyid) :
  pid ∈ map peer_device_id pds <-> exists p, p ∈ pds /\ peer_device_id p = pid.
Proof.
  rewrite list_elem_of_In, in_map_iff. setoid_rewrite list_elem_of_In. firstorder.
Qed.

Lemma existsb_peer (pds : list peer_entry) (pid : pyid) :
  existsb (fun p => bool_decide (peer_device_id p = pid)) pds = true <->
  pid ∈ map peer_device_id pds.
Proof.
  rewrite existsb_exists, in_peer_ids. setoid_rewrite list_elem_of_In.
  setoid_rewrite bool_decide_eq_true. done.
Qed.

Lemma filter_all_kept {A} (P : A -> Prop) `{forall x, Decision (P x)} (l : list A) :
  (forall x, x ∈ l -> P x) -> filter P l = l.
Proof.
  induction l as [|x l IH]; intros Hall; [done|].
  rewrite filter_cons_True by (apply Hall; by left). f_equal. apply IH.
  intros y Hy. apply Hall. by right.
Qed.

(** A [paired] message leaves the earlier entries as they are and makes
    sure the peer is listed; the list never holds two entries for one
    peer ID if it did not before. *)
Theorem client_paired_no_duplicates (pds : list peer_entry) (pid : pyid) (pname : option string) :
  NoDup (map peer_device_id pds) ->
  let pds' := fst (client_handle_message pds (RPaired pid pname)) in
  NoDup (map peer_device_id pds') /\ pid ∈ map peer_device_id pds' /\
  exists extra, pds' = (pds ++ extra)%list.
Proof.
  intros Hn. simpl.
  destruct (existsb (fun p => bool_decide (peer_device_id p = pid)) pds) eqn:E; simpl.
  - apply existsb_peer in E.
    split; [done|]. split; [done | exists []; by rewrite app_nil_r].
  - assert (Hnot : pid ∉ map peer_device_id pds).
    { intros Hin. apply existsb_peer in Hin. congruence. }
    rewrite map_app. simpl. split; [|split].
    + apply NoDup_app. split; [done|]. split; [|apply NoDup_singleton].
      intros x Hx Hy. apply list_elem_of_singleton in Hy. subst. done.
    + apply elem_of_app. right. by left.
    + by eexists.
Qed.

(** An [unpaired] message removes every entry for the target ID and keeps
    the others in order; when [target_device_id] is missing the log line
    raises and the listening loop ends. *)
Theorem client_unpaired_removes (pds : list peer_entry) (target : pyid) :
  let r := client_handle_message pds (RUnpaired target) in
  (target ∉ map peer_device_id (fst r)) /\
  (forall p, peer_device_id p <> target -> p ∈ fst r <-> p ∈ pds) /\
  (snd r = true <-> target <> None).
Proof.
  simpl. split; [|split].
  - intros Hin. apply in_peer_ids in Hin as (p & Hin & Hp).
    apply list_elem_of_filter in Hin as [Hne _]. done.
  - intros p Hp. rewrite list_elem_of_filter. tauto.
  - destruct target; split; congruence.
Qed.

(** A [paired] message for a peer not yet listed, followed by an
    [unpaired] message for it, gives back the original list. *)
Theorem client_paired_unpaired_roundtrip (pds : list peer_entry) (pid : pyid)
    (pname : option string) :
  pid ∉ map peer_device_id pds ->
  fst (client_handle_message (fst (client_handle_message pds (RPaired pid pname)))
         (RUnpaired pid)) = pds.
Proof.
  intros Hn. simpl.
  assert (E : existsb (fun p => bool_decide (peer_device_id p = pid)) pds = false).
  { apply not_true_is_false. rewrite existsb_peer. done. }
  rewrite E. simpl. rewrite filter_app, filter_cons_False by (simpl; tauto).
  rewrite app_nil_r. apply filter_all_kept. intros p Hp Heq. apply Hn.
  apply in_peer_ids. by exists p.
Qed.

(** ** The laptop's persistent identity *)

(** Once [load_device_identity] has loaded or created an ID, every later
    start reads back the same ID and leaves [DEVICE_FILE] as it is,
    whatever the host name and the date are then. *)
Theorem device_identity_stable (sha256_hex12 : string -> string)
    (f : id_file) (h d n dn h' d' n' dn' : string) :
  let r := load_device_identity sha256_hex12 f h d n dn in
  load_device_identity sha256_hex12 (snd r) h' d' n' dn' = (fst r, snd r).
Proof. destruct f as [| |[id|] ? ? ?]; reflexivity. Qed.

(** ** Instances of the properties above *)

(** Scenario: laptop [h] registers on connection 1, then its transport
    drops. *)
Definition laptop_dropped : list action :=
  [Recv 1 (MRegister (Some "h") (Some "laptop") (Some "Laptop")) "t0"; Drop 1].

Lemma unpair_notifications_witness :
  trace (snd (step 1 (Some "h") (MUnpair (Some "m")) "t3" (fst (run start paired_h_m)))) =
  (trace (fst (run start paired_h_m)) ++
   [Persisted; Sent 1 (OUnpaired (Some "m") "Device unpaired successfully")] ++
   match dict_get (Some "m") (devices (fst (run start paired_h_m))) with
   | Some tws => [Sent tws (OUnpaired (Some "h") "Device was unpaired remotely")]
   | None => []
   end)%list.
Proof.
  apply unpair_notifications.
  - vm_compute. set_solver.
  - intros tws Htws. vm_compute in Htws. injection Htws as <-. vm_compute. set_solver.
Defined.

Lemma relay_offline_target_witness :
  step 1 (Some "h") (MRelay (Some "m") None None) "t4"
    (fst (run start (paired_h_m ++ [Disconnect 2 "t3"])%list)) =
  (Ok (Some "h"), emit (Sent 1 (ORelayFailed "Target device is offline"))
                    (fst (run start (paired_h_m ++ [Disconnect 2 "t3"])%list))).
Proof.
  rewrite (relay_offline_target _ 1 (Some "h") (Some "m") None None "t4").
  - reflexivity.
  - left. vm_compute. set_solver.
  - vm_compute. reflexivity.
Defined.

Lemma pair_response_rejected_witness :
  step 1 (Some "h") (MPairResponse (Some "m") None (Some "bad code")) "t2"
    (fst (run start (take 2 paired_h_m))) =
  (Ok (Some "h"), emit (Sent 2 (OPairingFailed "bad code")) (fst (run start (take 2 paired_h_m)))).
Proof.
  rewrite (pair_response_rejected _ 1 2 (Some "h") (Some "m") None (Some "bad code") "t2").
  - reflexivity.
  - discriminate.
  - vm_compute. reflexivity.
Defined.

Lemma pair_request_no_laptop_witness :
  step 2 (Some "m") (MPairRequest (Some "123456") (Some "Phone")) "t1"
    (fst (run start laptop_dropped)) =
  (Ok (Some "m"), emit (Sent 2 (OPairingFailed "No laptops available"))
                    (fst (run start laptop_dropped))).
Proof.
  rewrite (pair_request_no_laptop _ 2 (Some "m") (Some "123456") (Some "Phone") "t1").
  - reflexivity.
  - intros k c Hin.
    assert (Hd : devices (fst (run start laptop_dropped)) = [(Some "h", 1%nat)])
      by (vm_compute; reflexivity).
    rewrite Hd in Hin. apply list_elem_of_singleton in Hin. injection Hin as -> ->.
    left. vm_compute. set_solver.
Defined.

Lemma cleanup_unregisters_witness :
  let s := fst (run start paired_h_m) in
  let s' := fst (run_action (run start paired_h_m) (Disconnect 2 "t9")) in
  let i := mk_info (Some "mobile") "Phone" (sha256_hex16 "m:Phone") "t1" "t1" in
  let u := fst (run start surrogate_register) in
  let u' := fst (run_action (run start surrogate_register) (Disconnect 1 "t1")) in
  (dict_get (Some "m") (devices s') = None /\
   device_info s' = dict_set (Some "m") (set_last_seen "t9" i) (device_info s) /\
   trace s' = (trace s ++ [Persisted])%list) /\
  (dict_get (Some "m") (devices u) = Some 1%nat /\
   dict_get (Some "m") (devices u') = None /\
   device_info u' = device_info u /\ trace u' = trace u).
Proof.
  assert (Hw : run start paired_h_m = (fst (run start paired_h_m), snd (run start paired_h_m)))
    by reflexivity.
  assert (Hu : run start surrogate_register =
               (fst (run start surrogate_register), snd (run start surrogate_register)))
    by reflexivity.
  destruct (cleanup_unregisters (fst (run start paired_h_m)) (snd (run start paired_h_m)) 2 "m" "t9")
    as (_ & _ & H3 & _ & _ & H6).
  - vm_compute. reflexivity.
  - discriminate.
  - apply (bool_decide_unpack (NoDup (map fst (devices (fst (run start paired_h_m)))))).
    vm_compute. exact I.
  - vm_compute. reflexivity.
  - destruct (cleanup_unregisters (fst (run start surrogate_register))
                (snd (run start surrogate_register)) 1 "m" "t1")
      as (_ & _ & G3 & _ & _ & G6).
    + vm_compute. reflexivity.
    + discriminate.
    + apply (bool_decide_unpack (NoDup (map fst (devices (fst (run start surrogate_register)))))).
      vm_compute. exact I.
    + vm_compute. reflexivity.
    + cbv zeta. rewrite Hw, Hu. split; split.
      * exact H3.
      * assert (Ei : dict_get (Some "m") (device_info (fst (run start paired_h_m))) =
                     Some (mk_info (Some "mobile") "Phone" (sha256_hex16 "m:Phone") "t1" "t1"))
          by (vm_compute; reflexivity).
        rewrite Ei in H6. exact H6.
      * vm_compute. reflexivity.
      * split; [exact G3|].
        assert (Ei : dict_get (Some "m") (device_info (fst (run start surrogate_register))) = None)
          by (vm_compute; reflexivity).
        rewrite Ei in G6. exact G6.
Defined.


Lemma cleanup_unregistered_noop_witness :
  snd (cleanup None "t9" (fst (run start paired_h_m))) = fst (run start paired_h_m).
Proof. apply cleanup_unregistered_noop. left. reflexivity. Defined.

Lemma pairing_set_changed_only_by_response_unpair_witness :
  paired_devices (snd (step 2 (Some "m") (MRelay (Some "h") None (Some "ls")) "t3"
                         (fst (run start paired_h_m)))) =
  paired_devices (fst (run start paired_h_m)).
Proof. apply pairing_set_changed_only_by_response_unpair; intros; discriminate. Defined.

Lemma host_offer_acceptance_witness :
  snd (host_handle_pair_request (mk_host None "Laptop (box)") (Some "123456") (Some "m") None) =
  [HPairResponse (Some "m") false "Invalid pairing code"] /\
  snd (host_handle_pair_request (fst (generate_pairing_code (mk_host None "Laptop (box)") 123456))
         (Some "123456") (Some "m") None) =
  (if bool_decide (Some "123456" = Some (py_str_int 123456)) then
     [HPairResponse (Some "m") true ("Paired with " ++ "Laptop (box)" ++ " (persistent)")]
   else [HPairResponse (Some "m") false "Invalid pairing code"]).
Proof.
  destruct (host_offer_acceptance (mk_host None "Laptop (box)") 123456 (Some "123456") (Some "m") None)
    as [H1 H2].
  split; [apply H1; reflexivity | exact H2].
Defined.

Lemma client_paired_no_duplicates_witness :
  let pds' := fst (client_handle_message [mk_peer (Some "a") "A" (Some "mobile")]
                     (RPaired (Some "b") None)) in
  NoDup (map peer_device_id pds') /\ Some "b" ∈ map peer_device_id pds' /\
  exists extra, pds' = ([mk_peer (Some "a") "A" (Some "mobile")] ++ extra)%list.
Proof.
  apply client_paired_no_duplicates.
  apply (bool_decide_unpack (NoDup (map peer_device_id [mk_peer (Some "a") "A" (Some "mobile")]))).
  vm_compute. exact I.
Defined.

Lemma client_unpaired_removes_witness :
  let r := client_handle_message [mk_peer (Some "a") "A" (Some "mobile");
                                  mk_peer (Some "b") "B" (Some "mobile")] (RUnpaired (Some "a")) in
  (Some "a" ∉ map peer_device_id (fst r)) /\
  (forall p, peer_device_id p <> Some "a" ->
     p ∈ fst r <-> p ∈ [mk_peer (Some "a") "A" (Some "mobile");
                        mk_peer (Some "b") "B" (Some "mobile")]) /\
  (snd r = true <-> Some "a" <> None).
Proof. apply client_unpaired_removes. Defined.

Lemma client_paired_unpaired_roundtrip_witness :
  fst (client_handle_message
         (fst (client_handle_message [mk_peer (Some "a") "A" (Some "mobile")]
                 (RPaired (Some "b") (Some "Phone"))))
         (RUnpaired (Some "b"))) = [mk_peer (Some "a") "A" (Some "mobile")].
Proof.
  apply client_paired_unpaired_roundtrip.
  apply (bool_decide_unpack (Some "b" ∉ map peer_device_id [mk_peer (Some "a") "A" (Some "mobile")])).
  vm_compute. exact I.
Defined.

(** ** [register] without a [device_id] *)

(** A [register] message without [device_id] still stores a [None] entry
    in the registry. When ["None:" + device_name] can be UTF-8 encoded it
    also stores a [None] entry in the directory and saves, but the log line
    raises before the [registered] reply, so nothing is sent back. When it
    cannot, the fingerprint raises: the directory is left as it is,
    nothing is saved and nothing is sent. *)
Theorem register_without_id_not_acknowledged (s : rstate) (ws : conn) (did dt : pyid)
    (dn : option string) (now : string) :
  let s' := snd (step ws did (MRegister None dt dn) now s) in
  devices s' = dict_set None ws (devices s) /\
  (has_surrogate ("None:" ++ get_default dn "Unknown") = false ->
   dict_mem None (device_info s') = true /\
   trace s' = (trace s ++ [Persisted])%list) /\
  (has_surrogate ("None:" ++ get_default dn "Unknown") = true ->
   device_info s' = device_info s /\ trace s' = trace s).
Proof.
  split; [apply (register_step_shape s ws did None dt dn now)|].
  assert (Hfp : generate_device_fingerprint None (get_default dn "Unknown") =
                if has_surrogate ("None:" ++ get_default dn "Unknown") then None
                else Some (sha256_hex16 ("None:" ++ get_default dn "Unknown")))
    by reflexivity.
  destruct (has_surrogate ("None:" ++ get_default dn "Unknown")) eqn:Hs.
  - split; [discriminate|]. intros _.
    unfold_m. unfold handle_register, dict_mem, save_persistent_data, bind, gets, modify,
      dict_index, ret, log_slice, raise, saved, emit, set_files, set_devices, set_device_info; simpl.
    rewrite Hfp. simpl. done.
  - split; [|discriminate]. intros _.
    unfold_m. unfold handle_register, dict_mem, save_persistent_data, bind, gets, modify,
      dict_index, ret, log_slice, raise, saved, emit, set_files, set_devices, set_device_info; simpl.
    rewrite Hfp. simpl.
    destruct (dict_get None (device_info s)) eqn:E; simpl; by rewrite dict_get_set_eq.
Qed.

(** ** [send_file_content] *)

(** The laptop sends a file's content exactly when the requested path is
    given, names an existing regular file of at most 1 MiB (1048576
    bytes, the bound included) and the file can be read; the content goes
    to the requesting device, with the expanded path. *)
Theorem send_file_content_only_small_files (expanduser : string -> string)
    (lookup : string -> fs_entry) (target file_path : pyid) (path content : string) :
  send_file_content expanduser lookup target file_path =
    [CRelay target "file_content" (PFileContent path content)] <->
  exists p st_size, file_path = Some p /\ path = expanduser p /\
    lookup (expanduser p) = FsFile st_size (ReadOk content) /\ (st_size <= 1024 * 1024)%Z.
Proof.
  unfold send_file_content. split.
  - destruct file_path as [p|]; [|discriminate].
    destruct (lookup (expanduser p)) as [| |sz rd] eqn:E; try discriminate.
    destruct (Z.ltb_spec (1024 * 1024) sz); [discriminate|].
    destruct rd as [c|m]; [|discriminate].
    intros Heq. injection Heq as <- <-. exists p, sz. done.
  - intros (p & sz & -> & -> & E & Hsz). rewrite E.
    destruct (Z.ltb_spec (1024 * 1024) sz); [lia|]. reflexivity.
Qed.

(** Every [read_file] request gets exactly one reply, addressed to the
    requesting device; a regular file larger than 1 MiB gets the error
    "File too large (max 1MB)" and its content is not read. *)
Theorem send_file_content_one_reply (expanduser : string -> string)
    (lookup : string -> fs_entry) (target file_path : pyid) :
  (exists mt pl, send_file_content expanduser lookup target file_path = [CRelay target mt pl]) /\
  (forall p st_size rd, file_path = Some p -> lookup (expanduser p) = FsFile st_size rd ->
   (1024 * 1024 < st_size)%Z ->
   send_file_content expanduser lookup target file_path =
   [CRelay target "error" (PError "File too large (max 1MB)")]).
Proof.
  unfold send_file_content. split.
  - destruct file_path as [p|]; [|eauto].
    destruct (lookup (expanduser p)) as [| |sz [c|m]]; eauto;
      destruct (Z.ltb (1024 * 1024) sz); eauto.
  - intros p sz rd -> E Hsz. rewrite E.
    destruct (Z.ltb_spec (1024 * 1024) sz); [reflexivity | lia].
Qed.

(** ** Instances *)

Lemma save_load_roundtrip_witness :
  device_info (restart (files (saved (fst (run start paired_h_m))))) =
    device_info (fst (run start paired_h_m)) /\
  paired_devices (restart (files (saved (fst (run start paired_h_m))))) =
    paired_devices (fst (run start paired_h_m)).
Proof.
  apply save_load_roundtrip.
  assert (Hd : map fst (device_info (fst (run start paired_h_m))) = [Some "h"; Some "m"])
    by (vm_compute; reflexivity).
  intros k Hk. rewrite Hd in Hk. apply list_elem_of_In in Hk. simpl in Hk.
  destruct Hk as [<-|[<-|[]]]; discriminate.
Defined.

Lemma send_file_content_one_reply_witness :
  send_file_content (fun p => p) (fun _ => FsFile 2000000 (ReadOk "big")) (Some "m")
    (Some "/tmp/big.log") =
  [CRelay (Some "m") "error" (PError "File too large (max 1MB)")].
Proof.
  apply (proj2 (send_file_content_one_reply (fun p => p) (fun _ => FsFile 2000000 (ReadOk "big"))
                  (Some "m") (Some "/tmp/big.log")) "/tmp/big.log" 2000000%Z (ReadOk "big")).
  - reflexivity.
  - reflexivity.
  - lia.
Defined.

Lemma register_without_id_not_acknowledged_witness :
  let s' := snd (step 1 None (MRegister None (Some "mobile") (Some lone_surrogate)) "t0"
                   empty_rstate) in
  device_info s' = device_info empty_rstate /\ trace s' = trace empty_rstate.
Proof.
  destruct (register_without_id_not_acknowledged empty_rstate 1 None (Some "mobile")
              (Some lone_surrogate) "t0") as (_ & _ & H).
  apply H. reflexivity.
Defined.
